(** * The PriorityFloodFlowRouter tutorial notebook

    A development over [src/python/the_Flow_Director_Accumulator_PriorityFlood.ipynb].

    The notebook is a sequential script: it builds a 10-by-10 raster grid,
    stores a synthetic elevation field on it, constructs the flow router,
    runs it, and plots.  The script is embedded cell by cell in a small
    state-and-exception monad [NB]; every call the script makes is appended
    to a log, so that what the notebook invokes can be read off a run.

    Numbers.  The arrays of the notebook hold binary64 floats.  The
    elevation field takes only integer values between 0 and 324, which
    binary64 represents exactly, so it is modelled over [Q] without loss.
    The rounding of the random rain array is not modelled; nothing below
    depends on its values.

    The external packages.  numpy, matplotlib and landlab are not part of
    the repository.  What the script needs from numpy and from the landlab
    grid is modelled below and marked as such.  The router itself (what its
    constructor and [run_one_step] write on the grid) is left open: it is a
    parameter of the development, and so is the random generator.  Of the
    router only this is fixed: its constructor refuses a [flow_metric] that
    is not one of its eight, what it writes is held in at-node arrays, of
    one entry per node, and its calls otherwise return.  The plotting calls
    are recorded in the log and taken to leave the grid alone; for
    landlab's [drainage_plot] this is assumed, not proved. *)

From Stdlib Require Import QArith Qminmax ZArith Lia Lqa.
From stdpp Require Import base strings list gmap.

Set Default Proof Using "Type".

(** ** numpy arrays *)

Abbreviation Arr := (list Q) (only parsing).
Abbreviation Mat := (list (list Q)) (only parsing).

(** Python exceptions the script can meet. *)
Inductive exn : Type :=
| FieldError (name : string)
| ValueError (what : string)
| AttributeError (name : string)
| TypeError (what : string)
| ReferenceError.

Inductive result (A : Type) : Type :=
| OK (a : A)
| Raise (e : exn).
Arguments OK {A} a.
Arguments Raise {A} e.

(** [k * a], [a ** 2], [a + b] and [k + a] on one-dimensional arrays. *)
Definition arr_scale (k : Q) (a : Arr) : Arr := map (Qmult k) a.
Definition arr_sq (a : Arr) : Arr := map (fun v => v ^ 2)%Q a.
Definition arr_add (a b : Arr) : Arr := zip_with Qplus a b.
Definition arr_shift (k : Q) (a : Arr) : Arr := map (Qplus k) a.

(** Modelled from the spec: numpy's [reshape] is the array-shape
    bookkeeping of an external library.  A one-dimensional array of
    [r * c] entries becomes [r] rows of [c] entries in row-major order;
    any other length is a ValueError. *)
Fixpoint rows_of (r c : nat) (a : Arr) : Mat :=
  match r with
  | O => []
  | S r' => take c a :: rows_of r' c (drop c a)
  end.

Definition np_reshape (a : Arr) (sh : nat * nat) : result Mat :=
  if Nat.eqb (length a) (sh.1 * sh.2) then OK (rows_of sh.1 sh.2 a)
  else Raise (ValueError "cannot reshape array").

(** Row-major flattening of a two-dimensional array. *)
Definition flatten (m : Mat) : Arr := concat m.

(** [Z.min()] and [Z.max()] of a two-dimensional array: over all entries;
    numpy raises ValueError on an array with no entry. *)
Definition amin (m : Mat) : result Q :=
  match flatten m with
  | [] => Raise (ValueError "zero-size array")
  | v :: vs => OK (foldl Qmin v vs)
  end.

Definition amax (m : Mat) : result Q :=
  match flatten m with
  | [] => Raise (ValueError "zero-size array")
  | v :: vs => OK (foldl Qmax v vs)
  end.

(** [(Z - zmin) / (zmax - zmin)], the argument [surf_plot] hands to the
    grey colour map.  numpy does not raise on a zero divisor: when
    [zmax - zmin] is zero every entry of [Z - zmin] is zero too, every
    quotient is 0/0, and the result is an array of NaN.  [None] stands for
    that all-NaN array.  The quotients are exact here where binary64
    rounds, and overflow, infinities and NaN entries do not occur: this is
    the normalisation of the notebook's surface, whose entries are the
    integers from 0 to 324, not of an arbitrary float array. *)
Definition normalised (Z : Mat) (zmin zmax : Q) : option Mat :=
  if Qeq_bool (zmax - zmin) 0 then None
  else Some (map (map (fun v => (v - zmin) / (zmax - zmin))%Q) Z).

(** A surface is constant when all its entries are equal. *)
Definition constant (m : Mat) : Prop :=
  forall u v, In u (flatten m) -> In v (flatten m) -> (u == v)%Q.

(** ** The landlab raster grid *)

(** Modelled from the spec: [RasterModelGrid] is landlab's regular grid,
    whose code is not in the repository.  A grid of shape (rows, columns)
    has unit spacing and its origin at (0, 0); nodes are numbered row by
    row from the lower-left corner, so node [n] has x = [n mod columns] and
    y = [n / columns].  Only the interior nodes are core nodes.  The
    at-node fields are a dictionary from field names to arrays. *)
Record Grid : Type := mkGrid {
  grid_shape : nat * nat;
  grid_x : Arr;
  grid_y : Arr;
  fields : gmap string Arr
}.

Definition raster_x (sh : nat * nat) : Arr :=
  map (fun n => inject_Z (Z.of_nat (n mod sh.2))) (seq 0 (sh.1 * sh.2)).

Definition raster_y (sh : nat * nat) : Arr :=
  map (fun n => inject_Z (Z.of_nat (n / sh.2))) (seq 0 (sh.1 * sh.2)).

Definition new_grid (sh : nat * nat) : Grid :=
  {| grid_shape := sh; grid_x := raster_x sh; grid_y := raster_y sh;
     fields := ∅ |}.

Definition grid_nodes (G : Grid) : nat := (grid_shape G).1 * (grid_shape G).2.

Definition grid_core_nodes (G : Grid) : nat :=
  ((grid_shape G).1 - 2) * ((grid_shape G).2 - 2).

Definition with_fields (G : Grid) (F : gmap string Arr) : Grid :=
  {| grid_shape := grid_shape G; grid_x := grid_x G; grid_y := grid_y G;
     fields := F |}.

(** Modelled from the spec: an at-node field of a landlab grid is an array
    with one entry per node.  landlab allocates it so, [add_field] refuses
    any other size, and a component writes its results into the array in
    place.  Of the arrays a component hands over, the entries of the grid's
    nodes are what the grid holds afterwards. *)
Definition at_nodes (G : Grid) (F : gmap string Arr) : gmap string Arr :=
  resize (grid_nodes G) 0%Q <$> F.

(** Modelled from the spec: [add_field] is landlab's, and the notebook
    describes it: once the grid has a field of that name, the clobber
    keyword has to be set to True.  A name already present without clobber
    is a FieldError; the values must have one entry per node; otherwise the
    values are stored under the name, replacing what was there. *)
Definition grid_add_field (G : Grid) (name : string) (values : Arr)
    (clobber : bool) : result Grid :=
  match fields G !! name with
  | Some _ =>
      if clobber then
        if Nat.eqb (length values) (grid_nodes G)
        then OK (with_fields G (<[name := values]> (fields G)))
        else Raise (ValueError "total size of the new array must be the same as the field")
      else Raise (FieldError name)
  | None =>
      if Nat.eqb (length values) (grid_nodes G)
      then OK (with_fields G (<[name := values]> (fields G)))
      else Raise (ValueError "total size of the new array must be the same as the field")
  end.

(** The synthetic elevation [3.0 * x**2 + y**2] of the notebook. *)
Definition elevation (x y : Arr) : Arr :=
  arr_add (arr_scale 3 (arr_sq x)) (arr_sq y).

(** The same surface as a function of one node's coordinates. *)
Definition height (x y : Q) : Q := (3 * x ^ 2 + y ^ 2)%Q.

(** The elevation field of every grid of the notebook: the synthetic
    surface on the coordinates of a 10-by-10 grid. *)
Definition elev10 : Arr := elevation (raster_x (10, 10)) (raster_y (10, 10)).

(** ** Neighbours on the raster *)

(** Core nodes are those off the perimeter. *)
Definition is_core (sh : nat * nat) (n : nat) : bool :=
  (1 <=? n mod sh.2) && (n mod sh.2 + 2 <=? sh.2) &&
  (1 <=? n / sh.2) && (n / sh.2 + 2 <=? sh.1).

(** The eight nodes around a core node: the four along the links and the
    four along the diagonals. *)
Definition neighbours (sh : nat * nat) (n : nat) : list nat :=
  let c := sh.2 in
  [n + 1; n + c; n - 1; n - c; n + c + 1; n + c - 1; n - c - 1; n - c + 1].

Definition value_at (a : Arr) (n : nat) : Q := nth n a 0%Q.

(** A node is a local minimum (a pit) when no neighbour lies strictly
    lower. *)
Definition is_pit (sh : nat * nat) (z : Arr) (n : nat) : Prop :=
  forall m, In m (neighbours sh n) -> (value_at z n <= value_at z m)%Q.

(** A node drains when water on it can leave the grid going strictly
    downhill from neighbour to neighbour: a perimeter node does, and so
    does a core node with a strictly lower neighbour that drains.  A
    depression is a set of nodes that do not drain. *)
Inductive drains (sh : nat * nat) (z : Arr) : nat -> Prop :=
| drains_edge n : n < sh.1 * sh.2 -> is_core sh n = false -> drains sh z n
| drains_down n m :
    is_core sh n = true -> In m (neighbours sh n) ->
    (value_at z m < value_at z n)%Q -> drains sh z m -> drains sh z n.

(** ** What the notebook passes and what it calls *)

Inductive pyval : Type :=
| PStr (s : string)
| PBool (b : bool)
| PNone.

Abbreviation kwargs := (list (string * pyval)) (only parsing).

Fixpoint kwarg (k : string) (kw : kwargs) : option pyval :=
  match kw with
  | [] => None
  | (k', v) :: kw' => if String.eqb k k' then Some v else kwarg k kw'
  end.

(** The names landlab's router takes as [flow_metric]: the eight the
    notebook passes.  The constructor refuses any other with a
    ValueError. *)
Definition flow_metrics : list string :=
  ["D8"; "D4"; "Rho8"; "Rho4"; "Quinn"; "Freeman"; "Holmgren"; "Dinf"].

Definition valid_options (kw : kwargs) : bool :=
  match kwarg "flow_metric" kw with
  | None => true
  | Some (PStr s) => existsb (String.eqb s) flow_metrics
  | Some _ => false
  end.

(** One entry per call the script makes on the libraries.  Grids and
    routers are named by their reference (the order of construction). *)
Inductive event : Type :=
| EvRasterModelGrid (g : nat) (sh : nat * nat)
| EvAddField (g : nat) (name : string) (values : Arr) (clobber : bool)
| EvRouter (r g : nat) (kw : kwargs)
| EvMethod (r : nat) (meth : string) (args : list pyval)
| EvReshape (a : Arr) (sh : nat * nat)
| EvPlotSurface (X Y Z : Mat) (facecolors : option Mat)
| EvDrainagePlot (g : nat) (surface title : option string)
| EvImshow (m : Mat)
| EvPrintMat (m : Mat)
| EvPrintNat (n : nat)
| EvPlt (call : string).

(** ** Reading a log *)

(** The flow-routing variants the notebook is said to demonstrate, and the
    string each one is passed as. *)
Inductive variant : Type :=
| D8 | D4 | Rho8 | Rho4 | Quinn | Freeman | Holmgren | D_infinity.

Definition flow_metric_of (v : variant) : string :=
  match v with
  | D8 => "D8" | D4 => "D4" | Rho8 => "Rho8" | Rho4 => "Rho4"
  | Quinn => "Quinn" | Freeman => "Freeman" | Holmgren => "Holmgren"
  | D_infinity => "Dinf"
  end.

(** A log demonstrates a flow metric when it holds, in this order, the
    construction of a router with that [flow_metric], a [run_one_step()]
    on that router, and a drainage plot of the router's grid. *)
Definition demonstrates (log : list event) (fm : string) : Prop :=
  exists i j k r g kw surface title,
    i < j /\ j < k /\
    log !! i = Some (EvRouter r g kw) /\
    kwarg "flow_metric" kw = Some (PStr fm) /\
    log !! j = Some (EvMethod r "run_one_step" []) /\
    log !! k = Some (EvDrainagePlot g surface title).

(** A method call is in order when it is [run_one_step()], without
    argument, on a router the log has seen constructed. *)
Definition router_call_ok (log : list event) (e : event) : Prop :=
  match e with
  | EvMethod r meth args =>
      meth = "run_one_step" /\ args = [] /\
      exists g kw, In (EvRouter r g kw) log
  | _ => True
  end.

(** The values [v] are the synthetic surface on the nodes of a grid of
    shape [sh]. *)
Definition is_synthetic (sh : nat * nat) (v : Arr) : Prop :=
  length v = sh.1 * sh.2 /\
  forall n, n < sh.1 * sh.2 ->
    value_at v n = height (value_at (raster_x sh) n) (value_at (raster_y sh) n).

(** Every grid construction in the log is that of a 10-by-10 grid, and the
    next call stores the synthetic elevation on it. *)
Fixpoint grids_ok (log : list event) : Prop :=
  match log with
  | [] => True
  | EvRasterModelGrid g sh :: rest =>
      sh = (10, 10) /\
      (exists v, head rest = Some (EvAddField g "topographic__elevation" v false) /\
                 is_synthetic sh v) /\
      grids_ok rest
  | _ :: rest => grids_ok rest
  end.




(** A surface plot of the notebook shows the elevation of the 10-by-10
    grid, normalised between its minimum 0 and its maximum 324, and none of
    its colours is NaN. *)
Definition surface_plot_ok (e : event) : Prop :=
  match e with
  | EvPlotSurface X Y Z colours =>
      Z = rows_of 10 10 elev10 /\
      colours = normalised Z 0 324 /\
      colours <> None
  | _ => True
  end.

Definition is_method_call (e : event) : bool :=
  match e with
  | EvMethod _ _ _ => true
  | _ => false
  end.

Definition is_surface_plot (e : event) : bool :=
  match e with
  | EvPlotSurface _ _ _ _ => true
  | _ => false
  end.

(** A stand-in router to run the notebook on: its constructor leaves the
    grid as it is; each step writes a flat drainage area and a unit flux. *)
Definition flat_init (kw : kwargs) (G : Grid) : unit * gmap string Arr :=
  (tt, fields G).

Definition flat_step (rs : unit) (G : Grid) : unit * gmap string Arr :=
  (tt, <["drainage_area" := replicate (grid_nodes G) 0%Q]>
         (<["water__unit_flux_in" := replicate (grid_nodes G) 1%Q]> (fields G))).

Definition half (i : nat) : Q := (1 # 2)%Q.

(** ** The script monad *)

Section Notebook.

(** The router is a parameter: [RS] is whatever a router object keeps
    between calls; the constructor and [run_one_step] each return the
    router's new state and the at-node fields as they leave them.  The
    shape and the coordinates of a landlab grid are read-only.  [rand i]
    is the [i]-th draw of the uniform generator. *)
Variable RS : Type.
Variable router_init : kwargs -> Grid -> RS * gmap string Arr.
Variable router_step : RS -> Grid -> RS * gmap string Arr.
Variable rand : nat -> Q.

(** The interpreter's memory: the grids and routers built so far (a
    reference is an index), the number of random draws made, and the log
    of calls. *)
Record World : Type := mkWorld {
  heap : list Grid;
  routers : list (nat * RS);
  rng : nat;
  out : list event
}.

Definition NB (A : Type) : Type := World -> result A * World.

Definition ret {A : Type} (a : A) : NB A := fun w => (OK a, w).

Definition raise {A : Type} (e : exn) : NB A := fun w => (Raise e, w).

(** An exception stops the run: what follows is not executed. *)
Definition bind {A B : Type} (m : NB A) (f : A -> NB B) : NB B :=
  fun w =>
    match m w with
    | (OK a, w') => f a w'
    | (Raise e, w') => (Raise e, w')
    end.

Definition lift {A : Type} (r : result A) : NB A := fun w => (r, w).

Definition emit (e : event) : NB unit :=
  fun w => (OK tt, mkWorld (heap w) (routers w) (rng w) (out w ++ [e])).

Local Notation "'let*' x ':=' m 'in' k" := (bind m (fun x => k))
  (at level 100, x name, m at next level, k at level 200, right associativity).
Local Notation "m ;; k" := (bind m (fun _ => k))
  (at level 100, k at level 200, right associativity).

Definition grid_of (g : nat) : NB Grid :=
  fun w =>
    match heap w !! g with
    | Some G => (OK G, w)
    | None => (Raise ReferenceError, w)
    end.

Definition set_grid (g : nat) (G : Grid) : NB unit :=
  fun w => (OK tt, mkWorld (<[g := G]> (heap w)) (routers w) (rng w) (out w)).

(** *** The calls of the script *)

(** [RasterModelGrid(sh)]: a new grid, with no field yet. *)
Definition RasterModelGrid (sh : nat * nat) : NB nat :=
  fun w =>
    let g := length (heap w) in
    (OK g, mkWorld (heap w ++ [new_grid sh]) (routers w) (rng w)
                   (out w ++ [EvRasterModelGrid g sh])).

(** The attributes [mg.shape], [mg.x_of_node], [mg.y_of_node],
    [mg.number_of_nodes] and [mg.number_of_core_nodes]. *)
Definition shape (mg : nat) : NB (nat * nat) :=
  let* G := grid_of mg in ret (grid_shape G).
Definition x_of_node (mg : nat) : NB Arr :=
  let* G := grid_of mg in ret (grid_x G).
Definition y_of_node (mg : nat) : NB Arr :=
  let* G := grid_of mg in ret (grid_y G).
Definition number_of_nodes (mg : nat) : NB nat :=
  let* G := grid_of mg in ret (grid_nodes G).
Definition number_of_core_nodes (mg : nat) : NB nat :=
  let* G := grid_of mg in ret (grid_core_nodes G).

(** [mg.at_node[name]]: a missing name is landlab's FieldError (in Python
    a kind of KeyError), the exception [add_field] raises too. *)
Definition at_node (mg : nat) (name : string) : NB Arr :=
  let* G := grid_of mg in
  match fields G !! name with
  | Some a => ret a
  | None => raise (FieldError name)
  end.

(** [mg.add_field(name, values, at="node", clobber=...)]. *)
Definition add_field (mg : nat) (name : string) (values : Arr)
    (clobber : bool) : NB Arr :=
  emit (EvAddField mg name values clobber) ;;
  let* G := grid_of mg in
  let* G' := lift (grid_add_field G name values clobber) in
  set_grid mg G' ;;
  ret values.

(** [a.reshape(sh)]. *)
Definition reshape (a : Arr) (sh : nat * nat) : NB Mat :=
  emit (EvReshape a sh) ;;
  lift (np_reshape a sh).

(** [np.random.rand(n)]: the next [n] draws. *)
Definition random_rand (n : nat) : NB Arr :=
  fun w =>
    (OK (map rand (seq (rng w) n)),
     mkWorld (heap w) (routers w) (rng w + n) (out w)).

(** [PriorityFloodFlowRouter(mg, **kw)]: the constructor refuses a
    [flow_metric] it does not know; otherwise it may write on the grid,
    and the new router remembers its grid. *)
Definition PriorityFloodFlowRouter (mg : nat) (kw : kwargs) : NB nat :=
  let* G := grid_of mg in
  if valid_options kw then
    let built := router_init kw G in
    set_grid mg (with_fields G (at_nodes G built.2)) ;;
    fun w =>
      let r := length (routers w) in
      (OK r, mkWorld (heap w) (routers w ++ [(mg, built.1)]) (rng w)
                     (out w ++ [EvRouter r mg kw]))
  else raise (ValueError "flow_metric").

Definition router_of (r : nat) : NB (nat * RS) :=
  fun w =>
    match routers w !! r with
    | Some x => (OK x, w)
    | None => (Raise ReferenceError, w)
    end.

Definition set_router (r : nat) (x : nat * RS) : NB unit :=
  fun w => (OK tt, mkWorld (heap w) (<[r := x]> (routers w)) (rng w) (out w)).

(** [fa.meth(args...)].  The notebook says of the router that it has one
    public method, [run_one_step()]; it takes no argument. *)
Definition call_method (fa : nat) (meth : string) (args : list pyval) : NB unit :=
  emit (EvMethod fa meth args) ;;
  if String.eqb meth "run_one_step" then
    match args with
    | [] =>
        let* x := router_of fa in
        let* G := grid_of x.1 in
        let stepped := router_step x.2 G in
        set_grid x.1 (with_fields G (at_nodes G stepped.2)) ;;
        set_router fa (x.1, stepped.1)
    | _ :: _ => raise (TypeError "run_one_step() takes no argument")
    end
  else raise (AttributeError meth).

Definition run_one_step (fa : nat) : NB unit := call_method fa "run_one_step" [].

(** [drainage_plot(mg, surface, title=...)] is landlab's plotting
    routine and [plt.*], [ax.*] are matplotlib's; their code is not in
    the repository.  They are recorded as calls, with the arguments the
    script passes; that they write nothing on the grid is assumed. *)
Definition drainage_plot (mg : nat) (surface title : option string) : NB unit :=
  emit (EvDrainagePlot mg surface title).

Definition plt (call : string) : NB unit := emit (EvPlt call).

(** *** The cells *)

(** The plotting routine of the first cell. *)
Definition surf_plot (mg : nat) (surface title : string) : NB unit :=
  plt "plt.figure()" ;;
  plt "plt.axes(projection='3d')" ;;
  let* a := at_node mg surface in
  let* sh := shape mg in
  let* Z := reshape a sh in
  let* zmin := lift (amin Z) in
  let* zmax := lift (amax Z) in
  let color := normalised Z zmin zmax in
  let* x := x_of_node mg in
  let* shx := shape mg in
  let* X := reshape x shx in
  let* y := y_of_node mg in
  let* shy := shape mg in
  let* Y := reshape y shy in
  emit (EvPlotSurface X Y Z color) ;;
  plt "ax.view_init(elev=35, azim=-120)" ;;
  plt "ax.set_xlabel('X axis')" ;;
  plt "ax.set_ylabel('Y axis')" ;;
  plt "ax.set_zlabel('Elevation')" ;;
  plt ("plt.title(" ++ title ++ ")") ;;
  plt "plt.show()".

(** The two statements every grid-building cell starts with: a new
    10-by-10 grid, and its elevation field. *)
Definition elevation_grid : NB nat :=
  let* mg := RasterModelGrid (10, 10) in
  let* x := x_of_node mg in
  let* y := y_of_node mg in
  let* _ := add_field mg "topographic__elevation" (elevation x y) false in
  ret mg.

(** Grid 1 and its surface plot. *)
Definition cell_surface : NB nat :=
  let* mg := RasterModelGrid (10, 10) in
  let* x := x_of_node mg in
  let* y := y_of_node mg in
  let* _ := add_field mg "topographic__elevation" (elevation x y) false in
  surf_plot mg "topographic__elevation" "Grid 1" ;;
  ret mg.

(** The router, built twice: with the defaults, then with the same
    options spelled out. *)
Definition cell_router (mg : nat) : NB nat :=
  let* fa := PriorityFloodFlowRouter mg [] in
  let* fa := PriorityFloodFlowRouter mg
    [("surface", PStr "topographic__elevation");
     ("flow_metric", PStr "D8");
     ("update_flow_depressions", PBool true);
     ("runoff_rate", PNone);
     ("depression_handler", PStr "fill")] in
  ret fa.

Definition cell_run (fa : nat) : NB unit := run_one_step fa.

Definition cell_drainage (mg : nat) : NB unit :=
  plt "plt.figure()" ;;
  drainage_plot mg None None.

Definition cell_drainage_area (mg : nat) : NB unit :=
  plt "plt.figure()" ;;
  drainage_plot mg (Some "drainage_area") None.

Definition cell_print_area (mg : nat) : NB unit :=
  let* a := at_node mg "drainage_area" in
  let* sh := shape mg in
  let* m := reshape a sh in
  emit (EvPrintMat m).

Definition cell_print_core (mg : nat) : NB unit :=
  let* n := number_of_core_nodes mg in
  emit (EvPrintNat n).

(** Rain on every node, stored over the flux field. *)
Definition cell_rain (mg : nat) : NB Arr :=
  let* n := number_of_nodes mg in
  let* u := random_rand n in
  let rain := arr_shift 1 (arr_scale 5 u) in
  let* sh := shape mg in
  let* m := reshape rain sh in
  emit (EvImshow m) ;;
  plt "plt.colorbar()" ;;
  plt "plt.show()" ;;
  let* _ := add_field mg "water__unit_flux_in" rain true in
  ret rain.

Definition cell_discharge (mg fa : nat) : NB unit :=
  run_one_step fa ;;
  plt "plt.figure()" ;;
  drainage_plot mg (Some "surface_water__discharge") (Some "Discharge").

(** The seven cells under "Various flow routing algorithms" differ in
    the [flow_metric] string only. *)
Definition cell_metric (flow_metric : string) : NB (nat * nat) :=
  let* mg := RasterModelGrid (10, 10) in
  let* x := x_of_node mg in
  let* y := y_of_node mg in
  let* _ := add_field mg "topographic__elevation" (elevation x y) false in
  let* fa := PriorityFloodFlowRouter mg
    [("surface", PStr "topographic__elevation");
     ("flow_metric", PStr flow_metric)] in
  run_one_step fa ;;
  plt "plt.figure()" ;;
  drainage_plot mg (Some "surface_water__discharge") (Some "Discharge") ;;
  ret (mg, fa).

Definition cell_D4 : NB (nat * nat) := cell_metric "D4".
Definition cell_Rho8 : NB (nat * nat) := cell_metric "Rho8".
Definition cell_Rho4 : NB (nat * nat) := cell_metric "Rho4".
Definition cell_Quinn : NB (nat * nat) := cell_metric "Quinn".
Definition cell_Freeman : NB (nat * nat) := cell_metric "Freeman".
Definition cell_Holmgren : NB (nat * nat) := cell_metric "Holmgren".
Definition cell_Dinf : NB (nat * nat) := cell_metric "Dinf".

(** The notebook up to the cell that prints the number of core nodes. *)
Definition first_run : NB (nat * nat) :=
  let* mg := cell_surface in
  let* fa := cell_router mg in
  cell_run fa ;;
  cell_drainage mg ;;
  cell_drainage_area mg ;;
  cell_print_area mg ;;
  cell_print_core mg ;;
  ret (mg, fa).

(** The cells on the other flow metrics. *)
Definition metrics : NB unit :=
  cell_D4 ;; cell_Rho8 ;; cell_Rho4 ;; cell_Quinn ;; cell_Freeman ;;
  cell_Holmgren ;; cell_Dinf ;; ret tt.

(** The whole notebook, cells run in order from a fresh kernel. *)
Definition notebook : NB unit :=
  let* gf := first_run in
  cell_rain gf.1 ;;
  cell_discharge gf.1 gf.2 ;;
  metrics.

Definition fresh : World := mkWorld [] [] 0 [].

(** *** The states and the log of a run *)

(** The grids, the router states and the calls a run goes through, written
    out.  That a run of the notebook does go through them is lemma
    [notebook_result] below. *)

Definition D8_options : kwargs :=
  [("surface", PStr "topographic__elevation");
   ("flow_metric", PStr "D8");
   ("update_flow_depressions", PBool true);
   ("runoff_rate", PNone);
   ("depression_handler", PStr "fill")].

Definition metric_options (flow_metric : string) : kwargs :=
  [("surface", PStr "topographic__elevation");
   ("flow_metric", PStr flow_metric)].

Definition built (kw : kwargs) (G : Grid) : Grid :=
  with_fields G (at_nodes G (router_init kw G).2).

Definition stepped (rs : RS) (G : Grid) : Grid :=
  with_fields G (at_nodes G (router_step rs G).2).

Definition G_elev : Grid :=
  with_fields (new_grid (10, 10)) (<["topographic__elevation" := elev10]> ∅).
Definition G_default : Grid := built [] G_elev.
Definition s_default : RS := (router_init [] G_elev).1.
Definition G_D8 : Grid := built D8_options G_default.
Definition s_D8 : RS := (router_init D8_options G_default).1.
Definition G_run : Grid := stepped s_D8 G_D8.
Definition s_run : RS := (router_step s_D8 G_D8).1.
Definition rain : Arr := arr_shift 1 (arr_scale 5 (map rand (seq 0 100))).
Definition G_rain : Grid :=
  with_fields G_run (<["water__unit_flux_in" := rain]> (fields G_run)).
Definition G_rerun : Grid := stepped s_run G_rain.
Definition s_rerun : RS := (router_step s_run G_rain).1.
Definition G_metric (fm : string) : Grid :=
  stepped (router_init (metric_options fm) G_elev).1 (built (metric_options fm) G_elev).
Definition s_metric (fm : string) : RS :=
  (router_step (router_init (metric_options fm) G_elev).1 (built (metric_options fm) G_elev)).1.

Definition Z10 : Mat := rows_of 10 10 elev10.

Definition log_surf_plot (title : string) : list event :=
  [EvPlt "plt.figure()";
   EvPlt "plt.axes(projection='3d')";
   EvReshape elev10 (10, 10);
   EvReshape (raster_x (10, 10)) (10, 10);
   EvReshape (raster_y (10, 10)) (10, 10);
   EvPlotSurface (rows_of 10 10 (raster_x (10, 10)))
                 (rows_of 10 10 (raster_y (10, 10))) Z10
                 (normalised Z10 0 324);
   EvPlt "ax.view_init(elev=35, azim=-120)";
   EvPlt "ax.set_xlabel('X axis')";
   EvPlt "ax.set_ylabel('Y axis')";
   EvPlt "ax.set_zlabel('Elevation')";
   EvPlt ("plt.title(" ++ title ++ ")");
   EvPlt "plt.show()"].

Definition log_surface : list event :=
  [EvRasterModelGrid 0 (10, 10);
   EvAddField 0 "topographic__elevation" elev10 false] ++
  log_surf_plot "Grid 1".

Definition log_router : list event :=
  [EvRouter 0 0 [];
   EvRouter 1 0 D8_options;
   EvMethod 1 "run_one_step" [];
   EvPlt "plt.figure()";
   EvDrainagePlot 0 None None;
   EvPlt "plt.figure()";
   EvDrainagePlot 0 (Some "drainage_area") None].

Definition log_print (a : Arr) : list event :=
  [EvReshape a (10, 10); EvPrintMat (rows_of 10 10 a); EvPrintNat 64].

Definition log_rain : list event :=
  [EvReshape rain (10, 10);
   EvImshow (rows_of 10 10 rain);
   EvPlt "plt.colorbar()";
   EvPlt "plt.show()";
   EvAddField 0 "water__unit_flux_in" rain true].

Definition log_discharge : list event :=
  [EvMethod 1 "run_one_step" [];
   EvPlt "plt.figure()";
   EvDrainagePlot 0 (Some "surface_water__discharge") (Some "Discharge")].

Definition log_metric (fm : string) (g r : nat) : list event :=
  [EvRasterModelGrid g (10, 10);
   EvAddField g "topographic__elevation" elev10 false;
   EvRouter r g (metric_options fm);
   EvMethod r "run_one_step" [];
   EvPlt "plt.figure()";
   EvDrainagePlot g (Some "surface_water__discharge") (Some "Discharge")].

Definition log_metrics : list event :=
  log_metric "D4" 1 2 ++ log_metric "Rho8" 2 3 ++ log_metric "Rho4" 3 4 ++
  log_metric "Quinn" 4 5 ++ log_metric "Freeman" 5 6 ++
  log_metric "Holmgren" 6 7 ++ log_metric "Dinf" 7 8.

Definition log_first : list event := log_surface ++ log_router.

Definition log_full (a : Arr) : list event :=
  log_first ++ log_print a ++ log_rain ++ log_discharge ++ log_metrics.

(** The memory once the first router has run: one grid, two routers. *)
Definition world_first (o : list event) : World :=
  mkWorld [G_run] [(0, s_default); (0, s_run)] 0 o.

(** A computation that leaves the grids and the routers as they are. *)
Definition reads_only {A : Type} (m : NB A) : Prop :=
  forall w, heap (m w).2 = heap w /\ routers (m w).2 = routers w.

(** *** The calls of the cells on any grid *)

(** The calls of [surf_plot] on a grid of shape [sh] whose surface is [a]
    and whose coordinates are [x] and [y], in order, with the colours it
    passes. *)
Definition surf_plot_calls (sh : nat * nat) (a x y : Arr) (colours : option Mat)
    (title : string) : list event :=
  [EvPlt "plt.figure()";
   EvPlt "plt.axes(projection='3d')";
   EvReshape a sh;
   EvReshape x sh;
   EvReshape y sh;
   EvPlotSurface (rows_of sh.1 sh.2 x) (rows_of sh.1 sh.2 y) (rows_of sh.1 sh.2 a)
                 colours;
   EvPlt "ax.view_init(elev=35, azim=-120)";
   EvPlt "ax.set_xlabel('X axis')";
   EvPlt "ax.set_ylabel('Y axis')";
   EvPlt "ax.set_zlabel('Elevation')";
   EvPlt ("plt.title(" ++ title ++ ")");
   EvPlt "plt.show()"].


(** The rain array made of the [n] draws from the [k]-th on.  The
    arithmetic is exact here where binary64 rounds; what is proved of the
    rain cell below does not depend on the values. *)
Definition rain_from (k n : nat) : Arr :=
  arr_shift 1 (arr_scale 5 (map rand (seq k n))).

(** The calls of the rain cell on grid [mg] of shape [sh]. *)
Definition rain_calls (mg : nat) (sh : nat * nat) (r : Arr) : list event :=
  [EvReshape r sh;
   EvImshow (rows_of sh.1 sh.2 r);
   EvPlt "plt.colorbar()";
   EvPlt "plt.show()";
   EvAddField mg "water__unit_flux_in" r true].

(** The method calls a log holds on router [r]. *)
Definition is_call_on (r : nat) (e : event) : bool :=
  match e with
  | EvMethod r' _ _ => Nat.eqb r' r
  | _ => false
  end.

Definition calls_on (r : nat) (log : list event) : nat :=
  length (filter (fun e => is_call_on r e = true) log).

Definition is_construction (e : event) : bool :=
  match e with
  | EvRouter _ _ _ => true
  | _ => false
  end.

(** The memory at the end of a complete run: the first grid as the second
    [run_one_step] leaves it, and a grid per flow-metric cell; the two
    routers of the first grid and one per flow-metric cell. *)
Definition final_grids : list Grid :=
  [G_rerun; G_metric "D4"; G_metric "Rho8"; G_metric "Rho4"; G_metric "Quinn";
   G_metric "Freeman"; G_metric "Holmgren"; G_metric "Dinf"].

Definition final_routers : list (nat * RS) :=
  [(0, s_default); (0, s_rerun); (1, s_metric "D4"); (2, s_metric "Rho8");
   (3, s_metric "Rho4"); (4, s_metric "Quinn"); (5, s_metric "Freeman");
   (6, s_metric "Holmgren"); (7, s_metric "Dinf")].

(** What a log prints: a matrix or a number. *)
Definition printed (e : event) : option (list (list Q) + nat) :=
  match e with
  | EvPrintMat m => Some (inl m)
  | EvPrintNat n => Some (inr n)
  | _ => None
  end.

Definition prints (log : list event) : list (list (list Q) + nat) :=
  omap printed log.

(** *** Arrays, the grid and the surface *)

Lemma lookup_map {A B : Type} (f : A -> B) (l : list A) (i : nat) :
  map f l !! i = f <$> (l !! i).
Proof. exact (list_lookup_fmap f l i). Qed.

Lemma length_raster_x sh : length (raster_x sh) = sh.1 * sh.2.
Proof. unfold raster_x. now rewrite length_map, length_seq. Qed.

Lemma length_raster_y sh : length (raster_y sh) = sh.1 * sh.2.
Proof. unfold raster_y. now rewrite length_map, length_seq. Qed.

Lemma length_elevation x y : length (elevation x y) = min (length x) (length y).
Proof.
  unfold elevation, arr_add, arr_scale, arr_sq.
  now rewrite length_zip_with, !length_map.
Qed.

Lemma lookup_elevation x y n :
  elevation x y !! n = (u ← x !! n; v ← y !! n; Some (height u v)).
Proof.
  unfold elevation, arr_add, arr_scale, arr_sq.
  rewrite lookup_zip_with, !lookup_map.
  destruct (x !! n) as [u|]; [|reflexivity].
  destruct (y !! n) as [v|]; reflexivity.
Qed.

Lemma lookup_raster_x sh n :
  n < sh.1 * sh.2 -> raster_x sh !! n = Some (inject_Z (Z.of_nat (n mod sh.2))).
Proof.
  intros H. unfold raster_x. rewrite lookup_map, lookup_seq_lt by exact H.
  reflexivity.
Qed.

Lemma lookup_raster_y sh n :
  n < sh.1 * sh.2 -> raster_y sh !! n = Some (inject_Z (Z.of_nat (n / sh.2))).
Proof.
  intros H. unfold raster_y. rewrite lookup_map, lookup_seq_lt by exact H.
  reflexivity.
Qed.

Lemma value_at_lookup a n v : a !! n = Some v -> value_at a n = v.
Proof. intros H. unfold value_at. now apply nth_lookup_Some. Qed.

Lemma rows_of_flatten r c a : length a = r * c -> flatten (rows_of r c a) = a.
Proof.
  unfold flatten. revert a. induction r as [|r IH]; intros a H; simpl in *.
  - now destruct a.
  - rewrite IH.
    + apply firstn_skipn.
    + rewrite length_drop. lia.
Qed.

Lemma height_mono_x (x x' y : Q) : (0 <= x -> x < x' -> height x y < height x' y)%Q.
Proof. unfold height. intros H0 H1. nra. Qed.

Lemma height_mono_y (x y y' : Q) : (0 <= y -> y < y' -> height x y < height x y')%Q.
Proof. unfold height. intros H0 H1. nra. Qed.

Lemma foldl_Qmin_le vs : forall v u, In u (v :: vs) -> (foldl Qmin v vs <= u)%Q.
Proof.
  induction vs as [|w vs IH]; intros v u Hu; simpl.
  - destruct Hu as [<-|[]]. apply Qle_refl.
  - destruct Hu as [<-|Hu].
    + eapply Qle_trans; [apply IH; left; reflexivity | apply Q.le_min_l].
    + destruct Hu as [<-|Hu].
      * eapply Qle_trans; [apply IH; left; reflexivity | apply Q.le_min_r].
      * apply IH. right. exact Hu.
Qed.

Lemma foldl_Qmin_In vs : forall v, exists u, In u (v :: vs) /\ (foldl Qmin v vs == u)%Q.
Proof.
  induction vs as [|w vs IH]; intros v; simpl.
  - exists v. split; [now left | reflexivity].
  - destruct (IH (Qmin v w)) as (u & [Hu|Hu] & E).
    + subst u. destruct (Q.min_dec v w) as [e|e].
      * exists v. split; [now left|]. now rewrite E.
      * exists w. split; [right; now left|]. now rewrite E.
    + exists u. split; [right; now right | exact E].
Qed.

Lemma foldl_Qmax_ge vs : forall v u, In u (v :: vs) -> (u <= foldl Qmax v vs)%Q.
Proof.
  induction vs as [|w vs IH]; intros v u Hu; simpl.
  - destruct Hu as [<-|[]]. apply Qle_refl.
  - destruct Hu as [<-|Hu].
    + eapply Qle_trans; [apply Q.le_max_l | apply IH; left; reflexivity].
    + destruct Hu as [<-|Hu].
      * eapply Qle_trans; [apply Q.le_max_r | apply IH; left; reflexivity].
      * apply IH. right. exact Hu.
Qed.

Lemma foldl_Qmax_In vs : forall v, exists u, In u (v :: vs) /\ (foldl Qmax v vs == u)%Q.
Proof.
  induction vs as [|w vs IH]; intros v; simpl.
  - exists v. split; [now left | reflexivity].
  - destruct (IH (Qmax v w)) as (u & [Hu|Hu] & E).
    + subst u. destruct (Q.max_dec v w) as [e|e].
      * exists v. split; [now left|]. now rewrite E.
      * exists w. split; [right; now left|]. now rewrite E.
    + exists u. split; [right; now right | exact E].
Qed.

(** The divisor of the normalisation is zero exactly on constant surfaces. *)
Lemma divisor_zero_iff_constant (Z : Mat) (zmin zmax : Q) :
  amin Z = OK zmin -> amax Z = OK zmax ->
  ((zmax - zmin == 0)%Q <-> constant Z).
Proof.
  unfold amin, amax, constant. destruct (flatten Z) as [|v vs]; [discriminate|].
  intros [= <-] [= <-]. split.
  - intros E u w Hu Hw.
    pose proof (foldl_Qmin_le vs v u Hu). pose proof (foldl_Qmax_ge vs v u Hu).
    pose proof (foldl_Qmin_le vs v w Hw). pose proof (foldl_Qmax_ge vs v w Hw).
    lra.
  - intros C.
    destruct (foldl_Qmin_In vs v) as (a & Ha & Ea).
    destruct (foldl_Qmax_In vs v) as (b & Hb & Eb).
    rewrite Ea, Eb. specialize (C a b Ha Hb). lra.
Qed.

Lemma normalised_None_iff Z zmin zmax :
  normalised Z zmin zmax = None <-> (zmax - zmin == 0)%Q.
Proof.
  unfold normalised. destruct (Qeq_bool (zmax - zmin) 0) eqn:E.
  - apply Qeq_bool_iff in E. tauto.
  - split; [discriminate|]. intros H. apply Qeq_bool_iff in H. congruence.
Qed.

Lemma length_elev10 : length elev10 = 100.
Proof. unfold elev10. rewrite length_elevation, length_raster_x, length_raster_y. reflexivity. Qed.

Lemma value_at_elev10 n :
  n < 100 ->
  value_at elev10 n = height (inject_Z (Z.of_nat (n mod 10))) (inject_Z (Z.of_nat (n / 10))).
Proof.
  intros H. apply value_at_lookup. unfold elev10.
  rewrite lookup_elevation, lookup_raster_x, lookup_raster_y by exact H.
  reflexivity.
Qed.

Lemma is_core_bounds n :
  is_core (10, 10) n = true ->
  1 <= n mod 10 /\ n mod 10 <= 8 /\ 1 <= n / 10 /\ n / 10 <= 8 /\ n < 100.
Proof.
  unfold is_core. cbn [fst snd]. rewrite !andb_true_iff, !Nat.leb_le.
  intros [[[? ?] ?] ?].
  pose proof (Nat.div_mod_eq n 10). lia.
Qed.

Lemma west_coords n : 1 <= n mod 10 -> (n - 1) mod 10 = n mod 10 - 1 /\ (n - 1) / 10 = n / 10.
Proof.
  intros H. pose proof (Nat.div_mod_eq n 10) as E.
  pose proof (Nat.mod_upper_bound n 10 ltac:(lia)) as B.
  assert (E' : n - 1 = 10 * (n / 10) + (n mod 10 - 1)) by lia.
  split.
  - symmetry. apply (Nat.mod_unique _ _ (n / 10)); lia.
  - symmetry. apply (Nat.div_unique _ _ _ (n mod 10 - 1)); lia.
Qed.

Lemma south_coords n : 1 <= n / 10 -> (n - 10) mod 10 = n mod 10 /\ (n - 10) / 10 = n / 10 - 1.
Proof.
  intros H. pose proof (Nat.div_mod_eq n 10) as E.
  pose proof (Nat.mod_upper_bound n 10 ltac:(lia)) as B.
  assert (E' : n - 10 = 10 * (n / 10 - 1) + n mod 10) by lia.
  split.
  - symmetry. apply (Nat.mod_unique _ _ (n / 10 - 1)); lia.
  - symmetry. apply (Nat.div_unique _ _ _ (n mod 10)); lia.
Qed.

Lemma inject_nat_lt a b : a < b -> (inject_Z (Z.of_nat a) < inject_Z (Z.of_nat b))%Q.
Proof. intros H. rewrite <- Zlt_Qlt. lia. Qed.

Lemma inject_nat_nonneg a : (0 <= inject_Z (Z.of_nat a))%Q.
Proof. change 0%Q with (inject_Z 0). rewrite <- Zle_Qle. lia. Qed.

Lemma west_lower n :
  is_core (10, 10) n = true -> (value_at elev10 (n - 1) < value_at elev10 n)%Q.
Proof.
  intros Hc. destruct (is_core_bounds n Hc) as (Hx & _ & _ & _ & Hn).
  destruct (west_coords n Hx) as [Ex Ey].
  rewrite !value_at_elev10, Ex, Ey by lia.
  apply height_mono_x; [apply inject_nat_nonneg | apply inject_nat_lt; lia].
Qed.

Lemma south_lower n :
  is_core (10, 10) n = true -> (value_at elev10 (n - 10) < value_at elev10 n)%Q.
Proof.
  intros Hc. destruct (is_core_bounds n Hc) as (_ & _ & Hy & _ & Hn).
  destruct (south_coords n Hy) as [Ex Ey].
  rewrite !value_at_elev10, Ex, Ey by lia.
  apply height_mono_y; [apply inject_nat_nonneg | apply inject_nat_lt; lia].
Qed.

Lemma elev10_drains n : n < 100 -> drains (10, 10) elev10 n.
Proof.
  induction n as [n IH] using lt_wf_ind. intros Hn.
  destruct (is_core (10, 10) n) eqn:Hc.
  - destruct (is_core_bounds n Hc) as (Hx & _).
    assert (n <> 0) by (intros ->; cbn in Hx; lia).
    apply (drains_down _ _ n (n - 1)); [exact Hc | | apply west_lower, Hc | apply IH; lia].
    right; right; left; reflexivity.
  - apply drains_edge; [exact Hn | exact Hc].
Qed.

Lemma amin_elev10 : amin (rows_of 10 10 elev10) = OK 0%Q.
Proof. vm_compute. reflexivity. Qed.
Lemma amax_elev10 : amax (rows_of 10 10 elev10) = OK 324%Q.
Proof. vm_compute. reflexivity. Qed.

(** *** Stepping through the script *)

Lemma lookup_last (A : Type) (h : list A) (x : A) : (h ++ [x]) !! length h = Some x.
Proof. apply list_lookup_middle. reflexivity. Qed.

Lemma insert_last (A : Type) (h : list A) (x y : A) :
  <[length h := y]> (h ++ [x]) = h ++ [y].
Proof. rewrite insert_app_r_alt by lia. rewrite Nat.sub_diag. reflexivity. Qed.

Lemma bind_ok {A B : Type} (m : NB A) (f : A -> NB B) w a w' :
  m w = (OK a, w') -> bind m f w = f a w'.
Proof. intros H. unfold bind. rewrite H. reflexivity. Qed.

Lemma bind_raise {A B : Type} (m : NB A) (f : A -> NB B) w e w' :
  m w = (Raise e, w') -> bind m f w = (Raise e, w').
Proof. intros H. unfold bind. rewrite H. reflexivity. Qed.

Lemma bind_assoc {A B C : Type} (m : NB A) (f : A -> NB B) (g : B -> NB C) w :
  bind (bind m f) g w = bind m (fun a => bind (f a) g) w.
Proof. unfold bind. destruct (m w) as [[a|e] w']; reflexivity. Qed.

Lemma grid_of_ok g G w : heap w !! g = Some G -> grid_of g w = (OK G, w).
Proof. intros H. unfold grid_of. rewrite H. reflexivity. Qed.

Lemma x_of_node_ok g G w :
  heap w !! g = Some G -> x_of_node g w = (OK (grid_x G), w).
Proof.
  intros H. unfold x_of_node.
  erewrite bind_ok by (apply grid_of_ok, H). reflexivity.
Qed.

Lemma y_of_node_ok g G w :
  heap w !! g = Some G -> y_of_node g w = (OK (grid_y G), w).
Proof.
  intros H. unfold y_of_node.
  erewrite bind_ok by (apply grid_of_ok, H). reflexivity.
Qed.

Lemma shape_ok g G w :
  heap w !! g = Some G -> shape g w = (OK (grid_shape G), w).
Proof.
  intros H. unfold shape.
  erewrite bind_ok by (apply grid_of_ok, H). reflexivity.
Qed.

Lemma number_of_nodes_ok g G w :
  heap w !! g = Some G -> number_of_nodes g w = (OK (grid_nodes G), w).
Proof.
  intros H. unfold number_of_nodes.
  erewrite bind_ok by (apply grid_of_ok, H). reflexivity.
Qed.

Lemma number_of_core_nodes_ok g G w :
  heap w !! g = Some G -> number_of_core_nodes g w = (OK (grid_core_nodes G), w).
Proof.
  intros H. unfold number_of_core_nodes.
  erewrite bind_ok by (apply grid_of_ok, H). reflexivity.
Qed.

Lemma at_node_ok g G name a w :
  heap w !! g = Some G -> fields G !! name = Some a ->
  at_node g name w = (OK a, w).
Proof.
  intros H Ha. unfold at_node.
  erewrite bind_ok by (apply grid_of_ok, H). rewrite Ha. reflexivity.
Qed.

Lemma at_node_missing g G name w :
  heap w !! g = Some G -> fields G !! name = None ->
  at_node g name w = (Raise (FieldError name), w).
Proof.
  intros H Ha. unfold at_node.
  erewrite bind_ok by (apply grid_of_ok, H). rewrite Ha. reflexivity.
Qed.

Lemma np_reshape_ok a sh :
  length a = sh.1 * sh.2 -> np_reshape a sh = OK (rows_of sh.1 sh.2 a).
Proof. intros H. unfold np_reshape. rewrite H, Nat.eqb_refl. reflexivity. Qed.

Lemma reshape_ok a sh w :
  length a = sh.1 * sh.2 ->
  reshape a sh w =
    (OK (rows_of sh.1 sh.2 a),
     mkWorld (heap w) (routers w) (rng w) (out w ++ [EvReshape a sh])).
Proof.
  intros H. unfold reshape. erewrite bind_ok by reflexivity.
  unfold lift. rewrite np_reshape_ok by exact H. reflexivity.
Qed.

Lemma add_field_ok g G G' name v c w :
  heap w !! g = Some G -> grid_add_field G name v c = OK G' ->
  add_field g name v c w =
    (OK v, mkWorld (<[g := G']> (heap w)) (routers w) (rng w)
                   (out w ++ [EvAddField g name v c])).
Proof.
  intros H HG. unfold add_field.
  erewrite bind_ok by reflexivity.
  erewrite bind_ok by (apply grid_of_ok; exact H).
  unfold lift at 1. unfold bind at 1. rewrite HG. reflexivity.
Qed.

Lemma grid_add_field_new G name v :
  fields G !! name = None -> length v = grid_nodes G ->
  grid_add_field G name v false = OK (with_fields G (<[name := v]> (fields G))).
Proof.
  intros H1 H2. unfold grid_add_field. rewrite H1, H2, Nat.eqb_refl. reflexivity.
Qed.

Lemma grid_add_field_clobber G name v :
  length v = grid_nodes G ->
  grid_add_field G name v true = OK (with_fields G (<[name := v]> (fields G))).
Proof.
  intros H. unfold grid_add_field. rewrite H, Nat.eqb_refl.
  destruct (fields G !! name); reflexivity.
Qed.

Lemma router_ok g G kw w :
  heap w !! g = Some G ->
  valid_options kw = true ->
  PriorityFloodFlowRouter g kw w =
    (OK (length (routers w)),
     mkWorld (<[g := built kw G]> (heap w))
             (routers w ++ [(g, (router_init kw G).1)]) (rng w)
             (out w ++ [EvRouter (length (routers w)) g kw])).
Proof.
  intros H Hv. unfold PriorityFloodFlowRouter.
  erewrite bind_ok by (apply grid_of_ok; exact H).
  rewrite Hv.
  erewrite bind_ok by reflexivity. reflexivity.
Qed.

Lemma run_one_step_ok fa g rs G w :
  routers w !! fa = Some (g, rs) -> heap w !! g = Some G ->
  run_one_step fa w =
    (OK tt,
     mkWorld (<[g := stepped rs G]> (heap w))
             (<[fa := (g, (router_step rs G).1)]> (routers w)) (rng w)
             (out w ++ [EvMethod fa "run_one_step" []])).
Proof.
  intros Hr Hg. unfold run_one_step, call_method.
  erewrite bind_ok by reflexivity. cbn [String.eqb Ascii.eqb Bool.eqb].
  erewrite bind_ok; cycle 1.
  { unfold router_of. cbn [routers]. rewrite Hr. reflexivity. }
  erewrite bind_ok; cycle 1.
  { apply grid_of_ok. cbn [heap fst]. exact Hg. }
  erewrite bind_ok by reflexivity. reflexivity.
Qed.

Lemma length_rain : length rain = 100.
Proof. unfold rain, arr_shift, arr_scale. rewrite !length_map, length_seq. reflexivity. Qed.

Ltac nb_side :=
  cbn [heap routers rng out fst snd];
  first [ apply lookup_last | reflexivity ].

Ltac nb_len :=
  cbn [grid_nodes grid_shape with_fields built stepped new_grid fst snd Nat.mul Nat.add
       G_elev G_default G_D8 G_run G_rain];
  first [ exact length_elev10 | exact length_rain | apply length_raster_x
        | apply length_raster_y | eassumption ].

Lemma lift_ok {A : Type} (r : result A) (a : A) w :
  r = OK a -> lift r w = (OK a, w).
Proof. intros ->. reflexivity. Qed.

Ltac nb_prim :=
  lazymatch goal with
  | |- x_of_node _ _ = _ => eapply x_of_node_ok; nb_side
  | |- y_of_node _ _ = _ => eapply y_of_node_ok; nb_side
  | |- shape _ _ = _ => eapply shape_ok; nb_side
  | |- number_of_nodes _ _ = _ => eapply number_of_nodes_ok; nb_side
  | |- number_of_core_nodes _ _ = _ => eapply number_of_core_nodes_ok; nb_side
  | |- PriorityFloodFlowRouter _ _ _ = _ =>
      eapply router_ok; [ nb_side | first [ reflexivity | eassumption ] ]
  | |- run_one_step _ _ = _ => eapply run_one_step_ok; nb_side
  | |- reshape _ _ _ = _ => eapply reshape_ok; nb_len
  | |- add_field _ _ _ _ _ = _ =>
      eapply add_field_ok;
      [ nb_side
      | first [ apply grid_add_field_new; [ apply lookup_empty | nb_len ]
              | apply grid_add_field_clobber; nb_len ] ]
  | |- at_node _ _ _ = _ =>
      eapply at_node_ok; [ nb_side | first [ apply lookup_insert_eq | eassumption ] ]
  | |- lift (amin _) _ = _ => apply lift_ok; exact amin_elev10
  | |- lift (amax _) _ = _ => apply lift_ok; exact amax_elev10
  | |- ret _ _ = _ => reflexivity
  | |- emit _ _ = _ => reflexivity
  | |- plt _ _ = _ => reflexivity
  | |- drainage_plot _ _ _ _ = _ => reflexivity
  | |- RasterModelGrid _ _ = _ => reflexivity
  | |- random_rand _ _ = _ => reflexivity
  end.

Ltac nb_step :=
  rewrite ?bind_assoc;
  erewrite bind_ok by nb_prim;
  cbn [heap routers rng out fst snd grid_x grid_y grid_shape new_grid with_fields
       built stepped];
  rewrite ?insert_last.

Lemma cell_metric_run fm w :
  valid_options (metric_options fm) = true ->
  cell_metric fm w =
    (OK (length (heap w), length (routers w)),
     mkWorld (heap w ++ [G_metric fm])
             (routers w ++ [(length (heap w), s_metric fm)]) (rng w)
             (out w ++ log_metric fm (length (heap w)) (length (routers w)))).
Proof.
  intros Hv. destruct w as [h rs k o]. unfold cell_metric.
  cbn [heap routers rng out].
  do 8 nb_step.
  unfold ret. rewrite <- !app_assoc. reflexivity.
Qed.

Lemma surf_plot_run mg title w :
  heap w !! mg = Some G_elev ->
  surf_plot mg "topographic__elevation" title w =
    (OK tt, mkWorld (heap w) (routers w) (rng w) (out w ++ log_surf_plot title)).
Proof.
  intros H. unfold surf_plot.
  do 2 nb_step.
  erewrite bind_ok by (eapply at_node_ok; [exact H | apply lookup_insert_eq]).
  erewrite bind_ok by (eapply shape_ok; exact H).
  nb_step. nb_step. nb_step.
  erewrite bind_ok by (eapply x_of_node_ok; exact H).
  erewrite bind_ok by (eapply shape_ok; exact H).
  nb_step.
  erewrite bind_ok by (eapply y_of_node_ok; exact H).
  erewrite bind_ok by (eapply shape_ok; exact H).
  nb_step.
  do 6 nb_step.
  unfold plt, emit. cbn [heap routers rng out]. rewrite <- !app_assoc. reflexivity.
Qed.

Lemma surface_run :
  cell_surface fresh = (OK 0, mkWorld [G_elev] [] 0 log_surface).
Proof.
  unfold cell_surface, fresh.
  do 4 nb_step. cbn [app length].
  erewrite bind_ok by (apply surf_plot_run; reflexivity).
  reflexivity.
Qed.

Lemma metrics_run w :
  length (heap w) = 1 -> length (routers w) = 2 ->
  exists w', metrics w = (OK tt, w') /\ out w' = out w ++ log_metrics.
Proof.
  intros Hh Hr.
  unfold metrics, cell_D4, cell_Rho8, cell_Rho4, cell_Quinn, cell_Freeman,
    cell_Holmgren, cell_Dinf.
  eexists. split.
  - do 7 (erewrite bind_ok by (apply cell_metric_run; reflexivity);
          cbn [heap routers rng out]).
    unfold ret. reflexivity.
  - cbn [out heap routers]. rewrite !length_app. rewrite Hh, Hr. cbn [length Nat.add].
    rewrite <- !app_assoc. reflexivity.
Qed.

Lemma router_cells_run {B : Type} (k : nat -> NB B) o :
  (let* fa := cell_router 0 in
   cell_run fa ;; cell_drainage 0 ;; cell_drainage_area 0 ;; k fa)
    (mkWorld [G_elev] [] 0 o) =
  k 1 (world_first (o ++ log_router)).
Proof.
  unfold cell_router, cell_run, cell_drainage, cell_drainage_area.
  do 2 (nb_step; cbn [list_insert insert app length]).
  nb_step.
  nb_step; cbn [list_insert insert app length].
  do 4 nb_step.
  unfold world_first. rewrite <- !app_assoc. reflexivity.
Qed.

Lemma print_core_run o :
  (cell_print_core 0 ;; ret (0, 1)) (world_first o) =
  (OK (0, 1), world_first (o ++ [EvPrintNat 64])).
Proof.
  unfold cell_print_core, world_first. do 2 nb_step. reflexivity.
Qed.

(** The cells up to the print of the core nodes.  The router decides
    whether the drainage area can be printed. *)
Lemma first_run_result :
  first_run fresh =
    match fields G_run !! "drainage_area" with
    | None => (Raise (FieldError "drainage_area"), world_first log_first)
    | Some a =>
        if Nat.eqb (length a) 100
        then (OK (0, 1), world_first (log_first ++ log_print a))
        else (Raise (ValueError "cannot reshape array"),
              world_first (log_first ++ [EvReshape a (10, 10)]))
    end.
Proof.
  unfold first_run.
  erewrite bind_ok by apply surface_run.
  rewrite router_cells_run. fold log_first.
  unfold cell_print_area.
  destruct (fields G_run !! "drainage_area") as [a|] eqn:Ha.
  - rewrite !bind_assoc.
    erewrite bind_ok by (eapply at_node_ok; [reflexivity | exact Ha]).
    rewrite !bind_assoc.
    erewrite bind_ok by (eapply shape_ok; reflexivity).
    cbn [grid_shape G_run stepped with_fields G_D8 built G_default G_elev new_grid].
    rewrite ?bind_assoc.
    destruct (Nat.eqb (length a) 100) eqn:Hl.
    + apply Nat.eqb_eq in Hl.
      erewrite bind_ok by (apply reshape_ok; exact Hl).
      erewrite bind_ok by reflexivity.
      etransitivity;
        [ apply (print_core_run
                   ((log_first ++ [EvReshape a (10, 10)]) ++
                    [EvPrintMat (rows_of 10 10 a)])) |].
      unfold log_print. rewrite <- !app_assoc. reflexivity.
    + erewrite bind_raise; [reflexivity|].
      unfold reshape. erewrite bind_ok by reflexivity.
      unfold lift, np_reshape. cbn [fst snd Nat.mul Nat.add]. rewrite Hl. reflexivity.
  - erewrite bind_raise; [reflexivity|].
    apply bind_raise.
    eapply at_node_missing; [reflexivity | exact Ha].
Qed.

Lemma rain_run o :
  cell_rain 0 (world_first o) =
    (OK rain, mkWorld [G_rain] [(0, s_default); (0, s_run)] 100 (o ++ log_rain)).
Proof.
  unfold cell_rain, world_first.
  do 2 nb_step.
  nb_step. nb_step. do 3 nb_step.
  nb_step. cbn [list_insert insert app length].
  unfold ret. rewrite <- !app_assoc. reflexivity.
Qed.

Lemma discharge_run o :
  cell_discharge 0 1 (mkWorld [G_rain] [(0, s_default); (0, s_run)] 100 o) =
    (OK tt, mkWorld [G_rerun] [(0, s_default); (0, s_rerun)] 100 (o ++ log_discharge)).
Proof.
  unfold cell_discharge.
  nb_step. cbn [list_insert insert app length].
  nb_step. unfold drainage_plot, emit. cbn [heap routers rng out].
  rewrite <- !app_assoc. reflexivity.
Qed.

Lemma rest_run a :
  exists w,
    (cell_rain 0 ;; cell_discharge 0 1 ;; metrics)
      (world_first (log_first ++ log_print a)) = (OK tt, w) /\
    out w = log_full a.
Proof.
  destruct (metrics_run
    (mkWorld [G_rerun] [(0, s_default); (0, s_rerun)] 100
       (((log_first ++ log_print a) ++ log_rain) ++ log_discharge)))
    as (w & Hm & Ho); [reflexivity | reflexivity |].
  exists w. split.
  - erewrite bind_ok by apply rain_run.
    erewrite bind_ok by apply discharge_run.
    exact Hm.
  - rewrite Ho. cbn [out]. unfold log_full. rewrite <- !app_assoc. reflexivity.
Qed.

(** What a run of the whole notebook returns and logs. *)
Lemma notebook_result :
  match fields G_run !! "drainage_area" with
  | None =>
      (notebook fresh).1 = Raise (FieldError "drainage_area") /\
      out (notebook fresh).2 = log_first
  | Some a =>
      if Nat.eqb (length a) 100
      then (notebook fresh).1 = OK tt /\ out (notebook fresh).2 = log_full a
      else (notebook fresh).1 = Raise (ValueError "cannot reshape array") /\
           out (notebook fresh).2 = log_first ++ [EvReshape a (10, 10)]
  end.
Proof.
  pose proof first_run_result as H. unfold notebook.
  destruct (fields G_run !! "drainage_area") as [a|].
  - destruct (Nat.eqb (length a) 100).
    + erewrite bind_ok by exact H. cbn [fst snd].
      destruct (rest_run a) as (w & -> & Ho). cbn [fst snd]. split; [reflexivity | exact Ho].
    + erewrite bind_raise by exact H. split; reflexivity.
  - erewrite bind_raise by exact H. split; reflexivity.
Qed.

Lemma notebook_completes :
  (notebook fresh).1 = OK tt ->
  exists a, fields G_run !! "drainage_area" = Some a /\ length a = 100 /\
            out (notebook fresh).2 = log_full a.
Proof.
  intros H. pose proof notebook_result as R.
  destruct (fields G_run !! "drainage_area") as [a|].
  - destruct (Nat.eqb (length a) 100) eqn:E.
    + exists a. apply Nat.eqb_eq in E. tauto.
    + destruct R as [R _]. congruence.
  - destruct R as [R _]. congruence.
Qed.

(** C1.  On every run of the notebook that reaches its last cell, and
    whatever the router does, each of the eight flow-routing variants (D8,
    D4, Rho8, Rho4, Quinn, Freeman, Holmgren, D-infinity) is demonstrated:
    the log holds the construction of a PriorityFloodFlowRouter whose
    [flow_metric] option is the variant's string ("Dinf" for D-infinity),
    then [run_one_step()] on that router, then a drainage plot of its
    grid. *)
Theorem every_flow_metric_is_demonstrated :
  (notebook fresh).1 = OK tt ->
  forall v, demonstrates (out (notebook fresh).2) (flow_metric_of v).
Proof.
  intros H. destruct (notebook_completes H) as (a & _ & _ & ->).
  intros v. unfold demonstrates.
  destruct v.
  - exists 15, 16, 18. do 5 eexists. repeat split; [lia | lia | reflexivity ..].
  - exists 34, 35, 37. do 5 eexists. repeat split; [lia | lia | reflexivity ..].
  - exists 40, 41, 43. do 5 eexists. repeat split; [lia | lia | reflexivity ..].
  - exists 46, 47, 49. do 5 eexists. repeat split; [lia | lia | reflexivity ..].
  - exists 52, 53, 55. do 5 eexists. repeat split; [lia | lia | reflexivity ..].
  - exists 58, 59, 61. do 5 eexists. repeat split; [lia | lia | reflexivity ..].
  - exists 64, 65, 67. do 5 eexists. repeat split; [lia | lia | reflexivity ..].
  - exists 70, 71, 73. do 5 eexists. repeat split; [lia | lia | reflexivity ..].
Qed.

Ltac unfold_logs :=
  unfold log_full, log_first, log_surface, log_surf_plot, log_router, log_print,
    log_rain, log_discharge, log_metrics, log_metric.

Ltac find_router :=
  do 2 eexists; cbn [In app]; repeat (first [ left; reflexivity | right ]).

Ltac settle_calls :=
  unfold_logs; cbn [app];
  repeat (apply List.Forall_cons;
          [ first [ exact I | split; [reflexivity | split; [reflexivity | find_router]] ] | ]);
  apply List.Forall_nil.

(** C2.  Whatever the router does, and wherever the run stops, every
    method call the notebook makes on a router is [run_one_step] with no
    argument, on a router constructed before; and there is such a call. *)
Theorem router_is_only_run_one_step :
  Forall (router_call_ok (out (notebook fresh).2)) (out (notebook fresh).2) /\
  In (EvMethod 1 "run_one_step" []) (out (notebook fresh).2).
Proof.
  pose proof notebook_result as R.
  destruct (fields G_run !! "drainage_area") as [a|].
  - destruct (Nat.eqb (length a) 100); destruct R as [_ ->].
    + split; [settle_calls | unfold_logs; cbn [In app]; tauto].
    + split; [settle_calls | unfold_logs; cbn [In app]; tauto].
  - destruct R as [_ ->].
    split; [settle_calls | unfold_logs; cbn [In app]; tauto].
Qed.

Lemma value_at_raster_x n :
  n < 100 -> value_at (raster_x (10, 10)) n = inject_Z (Z.of_nat (n mod 10)).
Proof. intros H. apply value_at_lookup, (lookup_raster_x (10, 10)), H. Qed.

Lemma value_at_raster_y n :
  n < 100 -> value_at (raster_y (10, 10)) n = inject_Z (Z.of_nat (n / 10)).
Proof. intros H. apply value_at_lookup, (lookup_raster_y (10, 10)), H. Qed.

Lemma elev10_synthetic : is_synthetic (10, 10) elev10.
Proof.
  split; [exact length_elev10 |]. cbn [fst snd]. intros n Hn.
  change (10 * 10) with 100 in Hn.
  rewrite value_at_elev10, value_at_raster_x, value_at_raster_y by exact Hn.
  reflexivity.
Qed.

Ltac settle_grids :=
  unfold_logs; cbn [app grids_ok head];
  repeat split; try reflexivity;
  try (eexists; split; [reflexivity | exact elev10_synthetic]).

Lemma reshape_round_trip a sh m :
  np_reshape a sh = OK m -> length a = sh.1 * sh.2 /\ flatten m = a.
Proof.
  unfold np_reshape. destruct (Nat.eqb (length a) (sh.1 * sh.2)) eqn:E; [|discriminate].
  apply Nat.eqb_eq in E. intros [= <-]. split; [exact E | apply rows_of_flatten, E].
Qed.



Lemma elev10_not_constant : ~ constant (rows_of 10 10 elev10).
Proof.
  intros C. assert (H : (0 == 324)%Q).
  { apply C; rewrite rows_of_flatten by exact length_elev10.
    - apply (nth_In elev10 0%Q (n := 0)). rewrite length_elev10. lia.
    - change 324%Q with (nth 99 elev10 0%Q).
      apply (nth_In elev10 0%Q (n := 99)). rewrite length_elev10. lia. }
  discriminate H.
Qed.

Ltac settle_surface :=
  unfold_logs; cbn [app];
  repeat (apply List.Forall_cons;
          [ first [ exact I
                  | split; [reflexivity | split; [reflexivity | discriminate]] ] | ]);
  apply List.Forall_nil.

(** C9.  The divisor [Z.max() - Z.min()] of [surf_plot] is zero exactly
    when the surface is constant, and exactly then the normalisation yields
    NaN.  The surface of the notebook, 3x^2 + y^2 on the 10-by-10 grid, has
    minimum 0 (at node 0, the origin corner) and maximum 324, so it is not
    constant and the divisor is not zero; every surface plot of a run is of
    that surface, with colours that are not NaN, and a run makes exactly one
    surface plot. *)
Theorem surf_plot_divisor_is_nonzero :
  (forall (Z : Mat) zmin zmax,
      amin Z = OK zmin -> amax Z = OK zmax ->
      ((zmax - zmin == 0)%Q <-> constant Z) /\
      (normalised Z zmin zmax = None <-> (zmax - zmin == 0)%Q)) /\
  amin (rows_of 10 10 elev10) = OK 0%Q /\
  amax (rows_of 10 10 elev10) = OK 324%Q /\
  value_at elev10 0 = 0%Q /\
  ~ (324 - 0 == 0)%Q /\
  ~ constant (rows_of 10 10 elev10) /\
  Forall surface_plot_ok (out (notebook fresh).2) /\
  length (filter (fun e => is_surface_plot e = true) (out (notebook fresh).2)) = 1.
Proof.
  split.
  { intros Z zmin zmax Hmin Hmax. split.
    - apply divisor_zero_iff_constant; assumption.
    - apply normalised_None_iff. }
  split; [exact amin_elev10 |]. split; [exact amax_elev10 |].
  split; [reflexivity |]. split; [discriminate |].
  split; [exact elev10_not_constant |].
  pose proof notebook_result as R.
  destruct (fields G_run !! "drainage_area") as [a|].
  - destruct (Nat.eqb (length a) 100); destruct R as [_ ->].
    + split; [settle_surface | reflexivity].
    + split; [settle_surface | reflexivity].
  - destruct R as [_ ->]. split; [settle_surface | reflexivity].
Qed.

Lemma core_not_pit n : is_core (10, 10) n = true -> ~ is_pit (10, 10) elev10 n.
Proof.
  intros Hc Hp. pose proof (west_lower n Hc) as Hw.
  assert (Hin : In (n - 1) (neighbours (10, 10) n)) by (right; right; left; reflexivity).
  specialize (Hp _ Hin). apply Qle_not_lt in Hp. contradiction.
Qed.

(** C10.  The surface 3x^2 + y^2 increases strictly with x and with y on
    non-negative coordinates.  On the 10-by-10 grid every core node has its
    western and its southern node among its neighbours, both strictly lower,
    so no core node is a local minimum; and every node drains to the
    perimeter going strictly downhill, so the elevation has no depression
    to fill. *)
Theorem elevation_has_no_depression :
  (forall x x' y : Q, (0 <= x)%Q -> (x < x')%Q -> (height x y < height x' y)%Q) /\
  (forall x y y' : Q, (0 <= y)%Q -> (y < y')%Q -> (height x y < height x y')%Q) /\
  (forall n, is_core (10, 10) n = true ->
     In (n - 1) (neighbours (10, 10) n) /\
     In (n - 10) (neighbours (10, 10) n) /\
     (value_at elev10 (n - 1) < value_at elev10 n)%Q /\
     (value_at elev10 (n - 10) < value_at elev10 n)%Q /\
     ~ is_pit (10, 10) elev10 n) /\
  (forall n, n < 100 -> drains (10, 10) elev10 n).
Proof.
  split; [exact height_mono_x |]. split; [exact height_mono_y |]. split.
  - intros n Hc. split; [right; right; left; reflexivity |].
    split; [right; right; right; left; reflexivity |].
    split; [apply west_lower, Hc |]. split; [apply south_lower, Hc |].
    apply core_not_pit, Hc.
  - exact elev10_drains.
Qed.

(** *** The plotting routine and the interior *)

Lemma reads_only_bind {A B : Type} (m : NB A) (f : A -> NB B) :
  reads_only m -> (forall a, reads_only (f a)) -> reads_only (bind m f).
Proof.
  intros Hm Hf w. unfold bind. specialize (Hm w).
  destruct (m w) as [[a|e] w']; cbn [snd] in *; [|exact Hm].
  destruct (Hf a w') as [Hh Hr]. destruct Hm as [Hh' Hr'].
  split; congruence.
Qed.

Lemma reads_only_emit e : reads_only (emit e).
Proof. intros w. split; reflexivity. Qed.

Lemma reads_only_lift {A : Type} (r : result A) : reads_only (lift r).
Proof. intros w. split; reflexivity. Qed.

Lemma reads_only_grid_of g : reads_only (grid_of g).
Proof. intros w. unfold grid_of. destruct (heap w !! g); split; reflexivity. Qed.

Lemma reads_only_ret {A : Type} (a : A) : reads_only (ret a).
Proof. intros w. split; reflexivity. Qed.

Lemma reads_only_at_node g name : reads_only (at_node g name).
Proof.
  apply reads_only_bind; [apply reads_only_grid_of |].
  intros G. destruct (fields G !! name); intros w; split; reflexivity.
Qed.

Lemma reads_only_reshape a sh : reads_only (reshape a sh).
Proof.
  apply reads_only_bind; [apply reads_only_emit | intros _; apply reads_only_lift].
Qed.

Lemma reads_only_attribute {A : Type} (f : Grid -> A) g :
  reads_only (bind (grid_of g) (fun G => ret (f G))).
Proof.
  apply reads_only_bind; [apply reads_only_grid_of | intros G; apply reads_only_ret].
Qed.

(** X1.  The plotting routine of the notebook reads the grid and writes
    nothing on it: whatever the grid holds, whichever surface is asked for
    and whether or not it raises, the grids and the routers are afterwards
    as they were. *)
Lemma surf_plot_reads_only mg surface title : reads_only (surf_plot mg surface title).
Proof.
  unfold surf_plot, plt, shape, x_of_node, y_of_node.
  repeat first
    [ apply reads_only_emit
    | apply reads_only_lift
    | apply reads_only_at_node
    | apply reads_only_reshape
    | apply reads_only_attribute
    | apply reads_only_bind; [| intros ? ] ].
Qed.

(** The interior of the 10-by-10 grid has 8 x 8 = 64 nodes, the number the
    notebook prints as [number_of_core_nodes]. *)
Lemma interior_has_64_nodes :
  grid_core_nodes (new_grid (10, 10)) = 64 /\
  length (filter (fun n => is_core (10, 10) n = true) (seq 0 100)) = 64.
Proof. split; reflexivity. Qed.

(** *** The plotting routine on any grid *)

Lemma amin_defined (Z : Mat) : flatten Z <> [] -> exists v, amin Z = OK v.
Proof. unfold amin. destruct (flatten Z); [congruence | eauto]. Qed.

Lemma amax_defined (Z : Mat) : flatten Z <> [] -> exists v, amax Z = OK v.
Proof. unfold amax. destruct (flatten Z); [congruence | eauto]. Qed.

(** *** The synthetic surface on any raster *)

Lemma lookup_synthetic sh n :
  n < sh.1 * sh.2 ->
  elevation (raster_x sh) (raster_y sh) !! n =
    Some (height (inject_Z (Z.of_nat (n mod sh.2))) (inject_Z (Z.of_nat (n / sh.2)))).
Proof.
  intros H. rewrite lookup_elevation, lookup_raster_x, lookup_raster_y by exact H.
  reflexivity.
Qed.

(** X5.  On a raster of any shape with at least one node, the synthetic
    elevation is constant exactly when the grid has a single node: with two
    nodes or more [surf_plot] divides by a nonzero number, and on a 1-by-1
    grid it divides zero by zero. *)
Theorem synthetic_constant_iff_single_node sh :
  0 < sh.1 * sh.2 ->
  (constant (rows_of sh.1 sh.2 (elevation (raster_x sh) (raster_y sh))) <->
   sh.1 * sh.2 = 1).
Proof.
  intros Hpos.
  assert (Hlen : length (elevation (raster_x sh) (raster_y sh)) = sh.1 * sh.2).
  { rewrite length_elevation, length_raster_x, length_raster_y. lia. }
  assert (Hc : 0 < sh.2) by (destruct sh as [r [|c]]; cbn in *; lia).
  unfold constant. rewrite rows_of_flatten by exact Hlen. split.
  - intros C. destruct (Nat.eq_dec (sh.1 * sh.2) 1) as [|Hne]; [assumption | exfalso].
    assert (H0 : 0 < sh.1 * sh.2) by lia.
    assert (H1 : 1 < sh.1 * sh.2) by lia.
    pose proof (lookup_synthetic sh 0 H0) as L0.
    pose proof (lookup_synthetic sh 1 H1) as L1.
    apply list_elem_of_lookup_2, list_elem_of_In in L0.
    apply list_elem_of_lookup_2, list_elem_of_In in L1.
    specialize (C _ _ L0 L1).
    rewrite Nat.Div0.mod_0_l, Nat.Div0.div_0_l in C.
    destruct (Nat.eq_dec sh.2 1) as [E|E].
    + rewrite E in C. cbn in C. discriminate C.
    + rewrite Nat.mod_1_l, Nat.div_1_l in C by lia. cbn in C. discriminate C.
  - intros E u v Hu Hv.
    destruct (elevation (raster_x sh) (raster_y sh)) as [|z [|z' zs]];
      cbn [length] in Hlen; try lia.
    destruct Hu as [<-|[]]. destruct Hv as [<-|[]]. reflexivity.
Qed.

(** *** The cells from any state *)

(** X7.  The cell that builds Grid 1 and plots it can be run from any state
    of the kernel: it never raises; it adds one grid, holding the elevation
    field only, and returns its reference; the grids and routers that were
    there are as before. *)
Theorem surface_cell_is_self_contained w :
  cell_surface w =
    (OK (length (heap w)),
     mkWorld (heap w ++ [G_elev]) (routers w) (rng w)
       (out w ++
        [EvRasterModelGrid (length (heap w)) (10, 10);
         EvAddField (length (heap w)) "topographic__elevation" elev10 false] ++
        log_surf_plot "Grid 1")).
Proof.
  destruct w as [h rs k o]. unfold cell_surface. cbn [heap routers rng out].
  do 4 nb_step.
  erewrite bind_ok by (apply surf_plot_run; cbn [heap]; apply lookup_last).
  unfold ret. cbn [heap routers rng out]. rewrite <- !app_assoc. reflexivity.
Qed.

(** X10.  The rain cell on any grid, of any shape and whatever its fields:
    it never raises, whether or not the grid has a flux field already; it
    draws one number per node; afterwards the grid has the rain under
    'water__unit_flux_in' and its other fields as before; the other grids
    and the routers are untouched. *)
Theorem rain_cell_on_any_grid mg G w :
  heap w !! mg = Some G ->
  cell_rain mg w =
    (OK (rain_from (rng w) (grid_nodes G)),
     mkWorld
       (<[mg := with_fields G
                  (<["water__unit_flux_in" := rain_from (rng w) (grid_nodes G)]>
                     (fields G))]> (heap w))
       (routers w) (rng w + grid_nodes G)
       (out w ++ rain_calls mg (grid_shape G) (rain_from (rng w) (grid_nodes G)))).
Proof.
  intros Hg. destruct w as [h rs k o]. cbn [heap routers rng out] in *.
  assert (Hl : length (rain_from k (grid_nodes G)) = grid_nodes G).
  { unfold rain_from, arr_shift, arr_scale. rewrite !length_map, length_seq. reflexivity. }
  unfold cell_rain.
  erewrite bind_ok by (eapply number_of_nodes_ok; exact Hg).
  erewrite bind_ok by reflexivity. cbn [heap routers rng out].
  fold (rain_from k (grid_nodes G)).
  erewrite bind_ok by (eapply shape_ok; exact Hg).
  erewrite bind_ok by (apply reshape_ok; exact Hl). cbn [heap routers rng out].
  do 3 (erewrite bind_ok by reflexivity; cbn [heap routers rng out]).
  erewrite bind_ok; cycle 1.
  { eapply add_field_ok; [exact Hg | apply grid_add_field_clobber, Hl]. }
  unfold ret, rain_calls. cbn [heap routers rng out].
  rewrite <- !app_assoc. reflexivity.
Qed.

(** *** The whole notebook *)

Lemma metrics_world o :
  metrics (mkWorld [G_rerun] [(0, s_default); (0, s_rerun)] 100 o) =
    (OK tt, mkWorld final_grids final_routers 100 (o ++ log_metrics)).
Proof.
  unfold metrics, cell_D4, cell_Rho8, cell_Rho4, cell_Quinn, cell_Freeman,
    cell_Holmgren, cell_Dinf.
  do 7 (erewrite bind_ok by (apply cell_metric_run; reflexivity);
        cbn [heap routers rng out app length]).
  unfold ret, log_metrics. rewrite <- !app_assoc. reflexivity.
Qed.

Lemma notebook_world :
  match fields G_run !! "drainage_area" with
  | None =>
      notebook fresh = (Raise (FieldError "drainage_area"), world_first log_first)
  | Some a =>
      if Nat.eqb (length a) 100
      then notebook fresh = (OK tt, mkWorld final_grids final_routers 100 (log_full a))
      else notebook fresh =
             (Raise (ValueError "cannot reshape array"),
              world_first (log_first ++ [EvReshape a (10, 10)]))
  end.
Proof.
  pose proof first_run_result as H. unfold notebook.
  destruct (fields G_run !! "drainage_area") as [a|].
  - destruct (Nat.eqb (length a) 100).
    + erewrite bind_ok by exact H. cbn [fst snd].
      erewrite bind_ok by apply rain_run.
      erewrite bind_ok by apply discharge_run.
      rewrite metrics_world. unfold log_full. rewrite <- !app_assoc. reflexivity.
    + erewrite bind_raise by exact H. reflexivity.
  - erewrite bind_raise by exact H. reflexivity.
Qed.

Lemma rows_of_dimensions r c a :
  length a = r * c ->
  length (rows_of r c a) = r /\ Forall (fun row => length row = c) (rows_of r c a).
Proof.
  revert a. induction r as [|r IH]; intros a H; cbn [rows_of].
  - split; [reflexivity | apply List.Forall_nil].
  - destruct (IH (drop c a)) as [Hl Hr]; [rewrite length_drop; lia |].
    split; [cbn [length]; rewrite Hl; reflexivity |].
    apply List.Forall_cons; [rewrite length_take; lia | exact Hr].
Qed.

(** *** The elevation on every grid *)

Lemma elevation_grid_run w :
  elevation_grid w =
    (OK (length (heap w)),
     mkWorld (heap w ++ [G_elev]) (routers w) (rng w)
       (out w ++
        [EvRasterModelGrid (length (heap w)) (10, 10);
         EvAddField (length (heap w)) "topographic__elevation" elev10 false])).
Proof.
  destruct w as [h rs k o]. unfold elevation_grid. cbn [heap routers rng out].
  do 4 nb_step.
  unfold ret. rewrite <- !app_assoc. reflexivity.
Qed.

(** C3.  Whatever the router does, every grid the notebook constructs is a
    10-by-10 raster grid, and the next call stores on it, under
    'topographic__elevation', the array whose value at every node [n] is
    3 x(n)^2 + y(n)^2 for the node's coordinates x(n), y(n); the first call
    of the notebook constructs such a grid, and on the new grid the
    [add_field] succeeds and the field reads back.  In the memory of the
    run: the two statements that open each of the eight grid-building cells
    leave, from any state, one more grid, of shape (10, 10) and holding that
    array under 'topographic__elevation'; each such cell is these two
    statements followed by the rest of the cell; the grids a run ends
    with are what the router made of grids so built, and each of them is
    10 by 10. *)
Theorem every_grid_is_10x10_with_elevation :
  grids_ok (out (notebook fresh).2) /\
  head (out (notebook fresh).2) = Some (EvRasterModelGrid 0 (10, 10)) /\
  grid_add_field (new_grid (10, 10)) "topographic__elevation" elev10 false = OK G_elev /\
  fields G_elev !! "topographic__elevation" = Some elev10 /\
  grid_shape G_elev = (10, 10) /\
  is_synthetic (10, 10) elev10 /\
  (forall w,
     elevation_grid w =
       (OK (length (heap w)),
        mkWorld (heap w ++ [G_elev]) (routers w) (rng w)
          (out w ++
           [EvRasterModelGrid (length (heap w)) (10, 10);
            EvAddField (length (heap w)) "topographic__elevation" elev10 false]))) /\
  (forall w,
     cell_surface w =
       (let* mg := elevation_grid in
        surf_plot mg "topographic__elevation" "Grid 1" ;;
        ret mg) w) /\
  (forall fm w,
     cell_metric fm w =
       (let* mg := elevation_grid in
        let* fa := PriorityFloodFlowRouter mg
          [("surface", PStr "topographic__elevation");
           ("flow_metric", PStr fm)] in
        run_one_step fa ;;
        plt "plt.figure()" ;;
        drainage_plot mg (Some "surface_water__discharge") (Some "Discharge") ;;
        ret (mg, fa)) w) /\
  (heap (notebook fresh).2 = [G_run] \/ heap (notebook fresh).2 = final_grids) /\
  Forall (fun G => grid_shape G = (10, 10)) (heap (notebook fresh).2).
Proof.
  assert (Hadd : grid_add_field (new_grid (10, 10)) "topographic__elevation" elev10 false
                 = OK G_elev).
  { apply grid_add_field_new; [apply lookup_empty | exact length_elev10]. }
  assert (Hf : fields G_elev !! "topographic__elevation" = Some elev10)
    by apply lookup_insert_eq.
  assert (Hlog : grids_ok (out (notebook fresh).2) /\
                 head (out (notebook fresh).2) = Some (EvRasterModelGrid 0 (10, 10))).
  { pose proof notebook_result as R.
    destruct (fields G_run !! "drainage_area") as [a|].
    - destruct (Nat.eqb (length a) 100); destruct R as [_ ->].
      + split; [settle_grids | reflexivity].
      + split; [settle_grids | reflexivity].
    - destruct R as [_ ->]. split; [settle_grids | reflexivity]. }
  destruct Hlog as [Hg Hh].
  split; [exact Hg |]. split; [exact Hh |]. split; [exact Hadd |].
  split; [exact Hf |]. split; [reflexivity |]. split; [exact elev10_synthetic |].
  split; [exact elevation_grid_run |].
  split.
  { intros w. destruct w as [h rs k o]. unfold cell_surface.
    cbn [heap routers rng out]. do 4 nb_step.
    erewrite (bind_ok elevation_grid) by apply elevation_grid_run.
    cbn [heap routers rng out]. rewrite <- !app_assoc. reflexivity. }
  split.
  { intros fm w. destruct w as [h rs k o]. unfold cell_metric.
    cbn [heap routers rng out]. do 4 nb_step.
    erewrite (bind_ok elevation_grid) by apply elevation_grid_run.
    cbn [heap routers rng out]. rewrite <- !app_assoc. reflexivity. }
  assert (Hheap : heap (notebook fresh).2 = [G_run] \/
                  heap (notebook fresh).2 = final_grids).
  { pose proof notebook_world as R.
    destruct (fields G_run !! "drainage_area") as [a|].
    - destruct (Nat.eqb (length a) 100); rewrite R; cbn [snd heap];
        [right | left]; reflexivity.
    - rewrite R. cbn [snd heap]. left. reflexivity. }
  split; [exact Hheap |].
  destruct Hheap as [-> | ->]; unfold final_grids;
    repeat (apply List.Forall_cons; [reflexivity |]); apply List.Forall_nil.
Qed.

(** *** Reshapes *)



Lemma reshape_wrong a sh w :
  length a <> sh.1 * sh.2 ->
  reshape a sh w =
    (Raise (ValueError "cannot reshape array"),
     mkWorld (heap w) (routers w) (rng w) (out w ++ [EvReshape a sh])).
Proof.
  intros H. unfold reshape. erewrite bind_ok by reflexivity.
  unfold lift, np_reshape.
  destruct (Nat.eqb (length a) (sh.1 * sh.2)) eqn:E; [| reflexivity].
  apply Nat.eqb_eq in E. contradiction.
Qed.



(** *** The plotting routine and the print on any grid *)

(** X2.  [surf_plot] on any grid that has the surface field, with one entry
    per node for the field and the coordinates and at least one node: it
    returns, the grids and routers are as before, and the log gains its
    twelve calls in order, whatever colours it passes; the three matrices
    it plots flatten back to the field and to the coordinates. *)
Theorem surf_plot_on_any_grid mg G surface title a w :
  heap w !! mg = Some G ->
  fields G !! surface = Some a ->
  length a = grid_nodes G ->
  length (grid_x G) = grid_nodes G ->
  length (grid_y G) = grid_nodes G ->
  0 < grid_nodes G ->
  flatten (rows_of (grid_shape G).1 (grid_shape G).2 a) = a /\
  flatten (rows_of (grid_shape G).1 (grid_shape G).2 (grid_x G)) = grid_x G /\
  flatten (rows_of (grid_shape G).1 (grid_shape G).2 (grid_y G)) = grid_y G /\
  exists colours,
    surf_plot mg surface title w =
      (OK tt,
       mkWorld (heap w) (routers w) (rng w)
         (out w ++ surf_plot_calls (grid_shape G) a (grid_x G) (grid_y G)
                     colours title)).
Proof.
  intros Hg Ha La Lx Ly Hn. unfold grid_nodes in *.
  set (sh := grid_shape G) in *.
  assert (Hflat : flatten (rows_of sh.1 sh.2 a) = a) by (apply rows_of_flatten, La).
  assert (Hne : flatten (rows_of sh.1 sh.2 a) <> []).
  { rewrite Hflat. destruct a; [cbn in La; lia | discriminate]. }
  destruct (amin_defined _ Hne) as [zmin Hmin].
  destruct (amax_defined _ Hne) as [zmax Hmax].
  split; [exact Hflat |].
  split; [apply rows_of_flatten, Lx |].
  split; [apply rows_of_flatten, Ly |].
  exists (normalised (rows_of sh.1 sh.2 a) zmin zmax).
  unfold surf_plot.
  do 2 (erewrite bind_ok by reflexivity; cbn [heap routers rng out]).
  erewrite bind_ok by (eapply at_node_ok; [exact Hg | exact Ha]).
  erewrite bind_ok by (eapply shape_ok; exact Hg). fold sh.
  erewrite bind_ok by (apply reshape_ok; exact La). cbn [heap routers rng out].
  erewrite bind_ok by (apply lift_ok; exact Hmin).
  erewrite bind_ok by (apply lift_ok; exact Hmax).
  erewrite bind_ok by (eapply x_of_node_ok; exact Hg).
  erewrite bind_ok by (eapply shape_ok; exact Hg). fold sh.
  erewrite bind_ok by (apply reshape_ok; exact Lx). cbn [heap routers rng out].
  erewrite bind_ok by (eapply y_of_node_ok; exact Hg).
  erewrite bind_ok by (eapply shape_ok; exact Hg). fold sh.
  erewrite bind_ok by (apply reshape_ok; exact Ly). cbn [heap routers rng out].
  do 6 (erewrite bind_ok by reflexivity; cbn [heap routers rng out]).
  unfold plt, emit. cbn [heap routers rng out].
  unfold surf_plot_calls. rewrite <- !app_assoc. reflexivity.
Qed.

(** X3.  [surf_plot] on a grid that lacks the surface field raises
    landlab's FieldError for that name; by then it has opened a figure and
    its 3-D axes and made no other call, and the grids are as before. *)
Theorem surf_plot_missing_field mg G surface title w :
  heap w !! mg = Some G ->
  fields G !! surface = None ->
  surf_plot mg surface title w =
    (Raise (FieldError surface),
     mkWorld (heap w) (routers w) (rng w)
       (out w ++ [EvPlt "plt.figure()"; EvPlt "plt.axes(projection='3d')"])).
Proof.
  intros Hg Ha. unfold surf_plot.
  do 2 (erewrite bind_ok by reflexivity; cbn [heap routers rng out]).
  erewrite bind_raise; cycle 1.
  { eapply at_node_missing; [exact Hg | exact Ha]. }
  rewrite <- app_assoc. reflexivity.
Qed.

(** X8.  The cell that prints the drainage area, on any grid.  If the grid
    has no 'drainage_area' field the cell raises landlab's FieldError and
    nothing else happens.  If the field has one entry per node the cell
    reshapes it to the grid's shape and prints that matrix, which flattens
    back to the field.  If it has another length the reshape raises a
    ValueError and nothing is printed.  The grids and routers are as
    before in each case. *)
Theorem print_cell_outcomes mg G w :
  heap w !! mg = Some G ->
  match fields G !! "drainage_area" with
  | None =>
      cell_print_area mg w = (Raise (FieldError "drainage_area"), w)
  | Some a =>
      if Nat.eqb (length a) (grid_nodes G)
      then cell_print_area mg w =
             (OK tt,
              mkWorld (heap w) (routers w) (rng w)
                (out w ++
                 [EvReshape a (grid_shape G);
                  EvPrintMat (rows_of (grid_shape G).1 (grid_shape G).2 a)])) /\
           flatten (rows_of (grid_shape G).1 (grid_shape G).2 a) = a
      else cell_print_area mg w =
             (Raise (ValueError "cannot reshape array"),
              mkWorld (heap w) (routers w) (rng w)
                (out w ++ [EvReshape a (grid_shape G)]))
  end.
Proof.
  intros Hg. unfold cell_print_area.
  destruct (fields G !! "drainage_area") as [a|] eqn:Ha.
  - erewrite bind_ok by (eapply at_node_ok; [exact Hg | exact Ha]).
    erewrite bind_ok by (eapply shape_ok; exact Hg).
    unfold grid_nodes.
    destruct (Nat.eqb (length a) ((grid_shape G).1 * (grid_shape G).2)) eqn:E.
    + apply Nat.eqb_eq in E.
      erewrite bind_ok by (apply reshape_ok; exact E).
      split; [| apply rows_of_flatten, E].
      unfold emit. cbn [heap routers rng out]. rewrite <- app_assoc. reflexivity.
    + apply Nat.eqb_neq in E.
      erewrite bind_raise by (apply reshape_wrong; exact E). reflexivity.
  - apply bind_raise. eapply at_node_missing; [exact Hg | exact Ha].
Qed.


(** X9.  On a complete run the notebook constructs nine routers and calls
    [run_one_step] nine times: never on the router built with the default
    options, twice on the D8 router (before and after the rain), and once
    on each router of the seven flow-metric cells. *)
Theorem router_call_counts :
  (notebook fresh).1 = OK tt ->
  length (filter (fun e => is_construction e = true) (out (notebook fresh).2)) = 9 /\
  length (filter (fun e => is_method_call e = true) (out (notebook fresh).2)) = 9 /\
  map (fun r => calls_on r (out (notebook fresh).2)) (seq 0 9) =
    [0; 2; 1; 1; 1; 1; 1; 1; 1].
Proof.
  intros H. destruct (notebook_completes H) as (a & _ & _ & ->).
  split; [reflexivity | split; reflexivity].
Qed.

(** X12.  On a complete run the kernel ends with eight grids and nine
    routers, after 100 random draws.  The first grid is what the second
    [run_one_step] left of the grid that holds the rain; each of the other
    seven is what its router made of a new grid with the synthetic
    elevation; the router built with the default options still has its
    state of construction. *)
Theorem complete_run_memory :
  (notebook fresh).1 = OK tt ->
  heap (notebook fresh).2 = final_grids /\
  routers (notebook fresh).2 = final_routers /\
  rng (notebook fresh).2 = 100 /\
  fields G_rain = <["water__unit_flux_in" := rain]> (fields G_run) /\
  G_rerun = stepped s_run G_rain /\
  (forall fm,
     G_metric fm =
       stepped (router_init (metric_options fm) G_elev).1
               (built (metric_options fm) G_elev)).
Proof.
  intros H. pose proof notebook_world as R.
  destruct (fields G_run !! "drainage_area") as [a|].
  - destruct (Nat.eqb (length a) 100).
    + rewrite R. cbn [snd heap routers rng]. repeat split; reflexivity.
    + rewrite R in H. cbn [fst] in H. discriminate H.
  - rewrite R in H. cbn [fst] in H. discriminate H.
Qed.

(** X13.  In every run, complete or not and whatever the router, the router
    built with the default options is constructed, is never run, and is
    still in its state of construction when the run ends: the variable [fa]
    is bound anew before the first [run_one_step]. *)
Theorem default_router_is_never_run :
  In (EvRouter 0 0 []) (out (notebook fresh).2) /\
  calls_on 0 (out (notebook fresh).2) = 0 /\
  routers (notebook fresh).2 !! 0 = Some (0, s_default).
Proof.
  pose proof notebook_world as R.
  destruct (fields G_run !! "drainage_area") as [a|].
  - destruct (Nat.eqb (length a) 100); rewrite R; cbn [snd out routers].
    + split; [unfold_logs; cbn [In app]; repeat (first [left; reflexivity | right]) | split; reflexivity].
    + split; [unfold_logs; cbn [In app]; repeat (first [left; reflexivity | right]) | split; reflexivity].
  - rewrite R; cbn [snd out routers].
    split; [unfold_logs; cbn [In app]; repeat (first [left; reflexivity | right]) | split; reflexivity].
Qed.

(** X14.  On a complete run the notebook prints two things, in this order:
    the drainage area the first [run_one_step] left, as 10 rows of 10
    entries that flatten back to the field, and the number 64. *)
Theorem what_the_notebook_prints :
  (notebook fresh).1 = OK tt ->
  exists a,
    fields G_run !! "drainage_area" = Some a /\
    prints (out (notebook fresh).2) = [inl (rows_of 10 10 a); inr 64] /\
    length (rows_of 10 10 a) = 10 /\
    Forall (fun row => length row = 10) (rows_of 10 10 a) /\
    flatten (rows_of 10 10 a) = a.
Proof.
  intros H. destruct (notebook_completes H) as (a & Ha & Hl & ->).
  exists a. split; [exact Ha |]. split; [reflexivity |].
  destruct (rows_of_dimensions 10 10 a Hl) as [H1 H2].
  split; [exact H1 |]. split; [exact H2 | apply rows_of_flatten, Hl].
Qed.

End Notebook.

(** ** The notebook on the stand-in router *)

Lemma every_flow_metric_is_demonstrated_on_flat :
  (notebook unit flat_init flat_step half (fresh unit)).1 = OK tt /\
  forall v,
    demonstrates (out unit (notebook unit flat_init flat_step half (fresh unit)).2)
                 (flow_metric_of v).
Proof.
  assert (H : (notebook unit flat_init flat_step half (fresh unit)).1 = OK tt)
    by (vm_compute; reflexivity).
  split; [exact H |].
  exact (every_flow_metric_is_demonstrated unit flat_init flat_step half H).
Defined.

(** ** The extra results at concrete inputs *)

Lemma synthetic_constant_iff_single_node_on_10x10 :
  ~ constant (rows_of 10 10 (elevation (raster_x (10, 10)) (raster_y (10, 10)))).
Proof.
  intros C.
  assert (Hpos : 0 < (10, 10).1 * (10, 10).2) by (vm_compute; lia).
  pose proof (proj1 (synthetic_constant_iff_single_node (10, 10) Hpos) C) as E.
  vm_compute in E. discriminate E.
Defined.

Lemma rain_cell_on_any_grid_on_2x3 :
  (cell_rain unit half 0 (mkWorld unit [new_grid (2, 3)] [] 0 [])).1 =
    OK (rain_from half 0 6).
Proof.
  rewrite (rain_cell_on_any_grid unit half 0 (new_grid (2, 3))
             (mkWorld unit [new_grid (2, 3)] [] 0 [])).
  - reflexivity.
  - reflexivity.
Defined.

Lemma complete_run_memory_on_flat :
  length (heap unit (notebook unit flat_init flat_step half (fresh unit)).2) = 8 /\
  length (routers unit (notebook unit flat_init flat_step half (fresh unit)).2) = 9 /\
  rng unit (notebook unit flat_init flat_step half (fresh unit)).2 = 100.
Proof.
  assert (H : (notebook unit flat_init flat_step half (fresh unit)).1 = OK tt)
    by (vm_compute; reflexivity).
  destruct (complete_run_memory unit flat_init flat_step half H) as (Hh & Hr & Hn & _).
  rewrite Hh, Hr, Hn. split; [reflexivity | split; reflexivity].
Defined.

Lemma what_the_notebook_prints_on_flat :
  exists a,
    prints (out unit (notebook unit flat_init flat_step half (fresh unit)).2) =
      [inl (rows_of 10 10 a); inr 64].
Proof.
  assert (H : (notebook unit flat_init flat_step half (fresh unit)).1 = OK tt)
    by (vm_compute; reflexivity).
  destruct (what_the_notebook_prints unit flat_init flat_step half H)
    as (a & _ & Hp & _).
  exists a. exact Hp.
Defined.

Lemma surf_plot_on_any_grid_on_grid_1 :
  exists colours,
    surf_plot unit 0 "topographic__elevation" "Grid 1" (mkWorld unit [G_elev] [] 0 []) =
      (OK tt,
       mkWorld unit [G_elev] [] 0
         (surf_plot_calls (10, 10) elev10 (raster_x (10, 10)) (raster_y (10, 10))
            colours "Grid 1")).
Proof.
  destruct (surf_plot_on_any_grid unit 0 G_elev "topographic__elevation" "Grid 1"
              elev10 (mkWorld unit [G_elev] [] 0 []))
    as (_ & _ & _ & colours & H).
  - reflexivity.
  - vm_compute. reflexivity.
  - vm_compute. reflexivity.
  - vm_compute. reflexivity.
  - vm_compute. reflexivity.
  - vm_compute. lia.
  - exists colours. exact H.
Defined.

Lemma surf_plot_missing_field_on_new_grid :
  (surf_plot unit 0 "drainage_area" "Area"
     (mkWorld unit [new_grid (10, 10)] [] 0 [])).1 = Raise (FieldError "drainage_area").
Proof.
  rewrite (surf_plot_missing_field unit 0 (new_grid (10, 10)) "drainage_area" "Area"
             (mkWorld unit [new_grid (10, 10)] [] 0 [])).
  - reflexivity.
  - reflexivity.
  - vm_compute. reflexivity.
Defined.

Lemma print_cell_outcomes_on_2x2 :
  cell_print_area unit 0
    (mkWorld unit
       [with_fields (new_grid (2, 2)) (<["drainage_area" := [0; 1; 2; 3]%Q]> ∅)] [] 0 []) =
    (OK tt,
     mkWorld unit
       [with_fields (new_grid (2, 2)) (<["drainage_area" := [0; 1; 2; 3]%Q]> ∅)] [] 0
       [EvReshape [0; 1; 2; 3]%Q (2, 2); EvPrintMat [[0; 1]; [2; 3]]%Q]) /\
  cell_print_area unit 0 (mkWorld unit [new_grid (2, 2)] [] 0 []) =
    (Raise (FieldError "drainage_area"), mkWorld unit [new_grid (2, 2)] [] 0 []).
Proof.
  split.
  - pose proof (print_cell_outcomes unit 0
                  (with_fields (new_grid (2, 2)) (<["drainage_area" := [0; 1; 2; 3]%Q]> ∅))
                  (mkWorld unit
                     [with_fields (new_grid (2, 2))
                        (<["drainage_area" := [0; 1; 2; 3]%Q]> ∅)] [] 0 [])
                  eq_refl) as H.
    cbn [fields with_fields] in H. rewrite lookup_insert_eq in H. exact (proj1 H).
  - exact (print_cell_outcomes unit 0 (new_grid (2, 2))
             (mkWorld unit [new_grid (2, 2)] [] 0 []) eq_refl).
Defined.

Lemma router_call_counts_on_flat :
  length (filter (fun e => is_method_call e = true)
            (out unit (notebook unit flat_init flat_step half (fresh unit)).2)) = 9 /\
  map (fun r => calls_on r
                  (out unit (notebook unit flat_init flat_step half (fresh unit)).2))
      (seq 0 9) = [0; 2; 1; 1; 1; 1; 1; 1; 1].
Proof.
  assert (H : (notebook unit flat_init flat_step half (fresh unit)).1 = OK tt)
    by (vm_compute; reflexivity).
  exact (proj2 (router_call_counts unit flat_init flat_step half H)).
Defined.
